(** * convert2lineprotocol: the line-protocol encoder of the MATLAB interface
      for InfluxDB, and its specification.

    The development embeds [MexFunction::operator()] of
    [src/convert2lineprotocol.cpp]: the row loop, the tag loop, the field
    switch and the separator bookkeeping, with the row buffer threaded as
    explicit state and the exceptions of the MATLAB Data API as an error
    monad. *)

From Stdlib Require Import Ascii String DecimalString DecimalPos DecimalZ.
From Stdlib Require Import List Bool Arith ZArith Lia Sorted.
From Stdlib Require Import PrimFloat FloatOps SpecFloat.
Import ListNotations.

Set Implicit Arguments.
Local Open Scope list_scope.

(** ** Text *)

(** [std::u16string]: a sequence of code units.  The separators, suffixes
    and digits the encoder writes are all ASCII. *)
Definition u16string := list ascii.

(** A literal [u"..."] of the source. *)
Definition U (s : string) : u16string := list_ascii_of_string s.

Arguments U s%_string.

(** [std::to_wstring] on an integer type: the decimal digits, with a leading
    minus sign for a negative value (as if by [%d], [%lld], [%llu]). *)
Definition to_wstring (z : Z) : u16string :=
  U (NilZero.string_of_int (Z.to_int z)).

(** The quotient [n / d] rounded to the nearest integer, ties to even
    ([d] positive, [n] non-negative). *)
Definition div_nearest_even (n d : Z) : Z :=
  let q := (n / d)%Z in
  let r := (n mod d)%Z in
  if (2 * r <? d)%Z then q
  else if (d <? 2 * r)%Z then (q + 1)%Z
  else if Z.even q then q else (q + 1)%Z.

(** The magnitude [m * 2^e] in millionths, correctly rounded. *)
Definition millionths (m : positive) (e : Z) : Z :=
  if (0 <=? e)%Z then (Z.pos m * 2 ^ e * 1000000)%Z
  else div_nearest_even (Z.pos m * 1000000) (2 ^ (- e)).

(** The six digits after the decimal point. *)
Definition six_digits (r : Z) : u16string :=
  tl (to_wstring (1000000 + r)).

Definition fixed_point (neg : bool) (q : Z) : u16string :=
  (if neg then U "-" else []) ++
  to_wstring (q / 1000000) ++ U "." ++ six_digits (q mod 1000000).

(** [std::to_wstring] on a [double]: as if by [swprintf] with [%f] (C++11
    to C++23), that is fixed-point notation with six digits after the
    decimal point, the exact value rounded to nearest, ties to even.  The
    encoder only formats finite values. *)
Definition to_wstring_double (x : float) : u16string :=
  match Prim2SF x with
  | S754_zero s => fixed_point s 0
  | S754_finite s m e => fixed_point s (millionths m e)
  | S754_infinity s => (if s then U "-" else []) ++ U "inf"
  | S754_nan => U "nan"
  end.

(** The character constants the encoder appends. *)
Definition quote : u16string := ["034"%char].
Definition newline : u16string := ["010"%char].

(** ** The MATLAB Data API, as far as the encoder uses it *)

(** [matlab::data::ArrayType], the run-time discriminator of an array. *)
Inductive ArrayType :=
| LOGICAL | CHAR | MATLAB_STRING | DOUBLE | SINGLE
| INT8 | UINT8 | INT16 | UINT16 | INT32 | UINT32 | INT64 | UINT64
| COMPLEX_DOUBLE | COMPLEX_SINGLE
| COMPLEX_INT8 | COMPLEX_UINT8 | COMPLEX_INT16 | COMPLEX_UINT16
| COMPLEX_INT32 | COMPLEX_UINT32 | COMPLEX_INT64 | COMPLEX_UINT64
| CELL | STRUCT | OBJECT | VALUE_OBJECT | HANDLE_OBJECT_REF | ENUM
| SPARSE_LOGICAL | SPARSE_DOUBLE | SPARSE_COMPLEX_DOUBLE | UNKNOWN.

Inductive IntegerType :=
| Int8 | UInt8 | Int16 | UInt16 | Int32 | UInt32 | Int64 | UInt64.

Inductive FloatType := Double | Single.

(** An array of the Data API: a column of the table, or the content of a
    cell.  An integer array holds values of its element type; a [single]
    array holds the [double] each element converts to (the conversion is
    exact); [OtherArray] stands for the arrays whose elements the encoder
    never reads. *)
#[local] Unset Elimination Schemes.
Inductive Array :=
| IntegerArray (t : IntegerType) (elems : list Z)
| FloatArray (t : FloatType) (elems : list float)
| StringArray (elems : list u16string)
| CellArray (elems : list Array)
| CharArray (chars : u16string)
| OtherArray (t : ArrayType).
#[local] Set Elimination Schemes.

Definition integer_type (t : IntegerType) : ArrayType :=
  match t with
  | Int8 => INT8 | UInt8 => UINT8 | Int16 => INT16 | UInt16 => UINT16
  | Int32 => INT32 | UInt32 => UINT32 | Int64 => INT64 | UInt64 => UINT64
  end.

Definition getType (a : Array) : ArrayType :=
  match a with
  | IntegerArray t _ => integer_type t
  | FloatArray Double _ => DOUBLE
  | FloatArray Single _ => SINGLE
  | StringArray _ => MATLAB_STRING
  | CellArray _ => CELL
  | CharArray _ => CHAR
  | OtherArray t => t
  end.

(** What ends a call early: the exceptions of the Data API, and
    [pop_back] on an empty string, which the language leaves undefined. *)
Inductive Failure :=
| InvalidArrayIndex
| InvalidArrayType
| TypeMismatch
| PopBackOnEmpty.

Inductive result (A : Type) :=
| Ok (a : A)
| Throw (e : Failure).

Arguments Throw {A} e.

Definition bind {A B : Type} (r : result A) (k : A -> result B) : result B :=
  match r with
  | Ok a => k a
  | Throw e => Throw e
  end.

Notation "x <- e ;; k" := (bind e (fun x => k))
  (at level 61, e at next level, right associativity).
Notation "' p <- e ;; k" := (bind e (fun x => match x with p => k end))
  (at level 61, p pattern, e at next level, right associativity).

(** [a[i]] on the elements of an array. *)
Definition index {A : Type} (l : list A) (i : nat) : result A :=
  match nth_error l i with
  | Some x => Ok x
  | None => Throw InvalidArrayIndex
  end.

(** [intN_t entry = col[iRow]] *)
Definition integer_entry (col : Array) (iRow : nat) : result Z :=
  match col with
  | IntegerArray _ elems => index elems iRow
  | _ => Throw TypeMismatch
  end.

(** [double entry = col[iRow]] *)
Definition double_entry (col : Array) (iRow : nat) : result float :=
  match col with
  | FloatArray _ elems => index elems iRow
  | _ => Throw TypeMismatch
  end.

(** [String entry = col[iRow]] on an array of MATLAB strings. *)
Definition string_entry (col : Array) (iRow : nat) : result u16string :=
  match col with
  | StringArray elems => index elems iRow
  | _ => Throw TypeMismatch
  end.

(** [CharArrayRef entry = col[iRow][0]; entry.toUTF16()] on a cell array:
    the cell has to hold a char array. *)
Definition cell_entry (col : Array) (iRow : nat) : result u16string :=
  match col with
  | CellArray elems =>
      c <- index elems iRow ;;
      match c with
      | CharArray chars => Ok chars
      | _ => Throw TypeMismatch
      end
  | _ => Throw TypeMismatch
  end.

(** [TypedArrayRef<int64_t> timeDataArray = data[0]] *)
Definition int64_array (a : Array) : result (list Z) :=
  match a with
  | IntegerArray Int64 elems => Ok elems
  | _ => Throw InvalidArrayType
  end.

(** [rowStr.pop_back()] *)
Definition pop_back (s : u16string) : result u16string :=
  match s with
  | [] => Throw PopBackOnEmpty
  | _ :: _ => Ok (removelast s)
  end.

(** ** The encoder *)

(** The variables of one iteration of the row loop.  [nanNum] and [colIndx]
    are [int]s that only count columns up from zero. *)
Record RowState := mkRowState {
  rowStr : u16string;
  addRow : bool;
  nanNum : nat;
  colIndx : nat
}.

(** [rowStr += s] *)
Definition append (st : RowState) (s : u16string) : RowState :=
  mkRowState (rowStr st ++ s) (addRow st) (nanNum st) (colIndx st).

(** [colIndx++] *)
Definition next_col (st : RowState) : RowState :=
  mkRowState (rowStr st) (addRow st) (nanNum st) (S (colIndx st)).

Section Encoder.

Variable measurementStr : u16string.
Variables fieldNames tagNames : list u16string.
Variable data : list Array.

Definition isTagNamesEmpty : bool := length tagNames <=? 0.

(** The iterators [lastTag] and [lastMinusOne], as offsets from [begin()].
    On an empty sequence the source steps back from [begin()]; the loop that
    compares with the iterator then has no iteration. *)
Definition lastTag : nat := length tagNames - 1.
Definition lastMinusOne : nat := length fieldNames - 1.

(** [nanNum += 1; is_nan = true;
     if (fieldNames.end() - fieldNames.begin() == nanNum) addRow = false;] *)
Definition missing (st : RowState) : RowState :=
  let n := nanNum st + 1 in
  mkRowState (rowStr st)
             (if length fieldNames =? n then false else addRow st)
             n (colIndx st).

Section Row.

Variable iRow : nat.

(** The body of the loop over [tagNames]; [it] is the offset of the
    iterator. *)
Definition tag_body (it : nat) (name : u16string) (st : RowState)
  : result RowState :=
  let st := append st (name ++ U "=") in
  let st := next_col st in
  col <- index data (colIndx st) ;;
  st <- match getType col with
        | CELL =>
            strEntry <- cell_entry col iRow ;;
            Ok (append st strEntry)
        | MATLAB_STRING =>
            entry <- string_entry col iRow ;;
            Ok (append st entry)
        | _ => Ok st
        end ;;
  Ok (if it =? lastTag then append st (U " ") else append st (U ",")).

Fixpoint tag_loop (names : list u16string) (it : nat) (st : RowState)
  : result RowState :=
  match names with
  | [] => Ok st
  | name :: rest =>
      st <- tag_body it name st ;;
      tag_loop rest (S it) st
  end.

(** The switch on the type of a field column: the state and [is_nan]. *)
Definition field_switch (col : Array) (temp : u16string) (st : RowState)
  : result (RowState * bool) :=
  match getType col with
  | INT8 =>
      entry <- integer_entry col iRow ;;
      Ok (append st (temp ++ to_wstring entry ++ U "i"), false)
  | UINT8 =>
      entry <- integer_entry col iRow ;;
      Ok (append st (temp ++ to_wstring entry ++ U "u"), false)
  | INT16 =>
      entry <- integer_entry col iRow ;;
      Ok (append st (temp ++ to_wstring entry ++ U "i"), false)
  | UINT16 =>
      entry <- integer_entry col iRow ;;
      Ok (append st (temp ++ to_wstring entry ++ U "u"), false)
  | INT32 =>
      entry <- integer_entry col iRow ;;
      Ok (append st (temp ++ to_wstring entry ++ U "i"), false)
  | UINT32 =>
      entry <- integer_entry col iRow ;;
      Ok (append st (temp ++ to_wstring entry ++ U "u"), false)
  | INT64 =>
      entry <- integer_entry col iRow ;;
      Ok (append st (temp ++ to_wstring entry ++ U "i"), false)
  | UINT64 =>
      entry <- integer_entry col iRow ;;
      Ok (append st (temp ++ to_wstring entry ++ U "u"), false)
  | CELL =>
      strEntry <- cell_entry col iRow ;;
      Ok (append st (temp ++ quote ++ strEntry ++ quote), false)
  | MATLAB_STRING =>
      entry <- string_entry col iRow ;;
      Ok (append st (temp ++ quote ++ entry ++ quote), false)
  | DOUBLE | SINGLE =>
      entry <- double_entry col iRow ;;
      if negb (is_finite entry)
      then Ok (missing st, true)
      else Ok (append st (temp ++ to_wstring_double entry), false)
  | _ => Ok (missing st, true)
  end.

(** The body of the loop over [fieldNames]. *)
Definition field_body (it : nat) (name : u16string) (st : RowState)
  : result RowState :=
  let temp := name ++ U "=" in
  let st := next_col st in
  col <- index data (colIndx st) ;;
  '(st, is_nan) <- field_switch col temp st ;;
  if (it =? lastMinusOne) && is_nan then
    s <- pop_back (rowStr st) ;;
    Ok (append (mkRowState s (addRow st) (nanNum st) (colIndx st)) (U " "))
  else if it =? lastMinusOne then Ok (append st (U " "))
  else if negb is_nan then Ok (append st (U ","))
  else Ok st.

Fixpoint field_loop (names : list u16string) (it : nat) (st : RowState)
  : result RowState :=
  match names with
  | [] => Ok st
  | name :: rest =>
      st <- field_body it name st ;;
      field_loop rest (S it) st
  end.

(** The row buffer before the tag loop. *)
Definition row_start : RowState :=
  let st := mkRowState [] true 0 0 in
  let st := append st measurementStr in
  if isTagNamesEmpty then append st (U " ") else append st (U ",").

(** The row buffer after the two loops. *)
Definition row_columns : result RowState :=
  st <- tag_loop tagNames 0 row_start ;;
  field_loop fieldNames 0 st.

(** The body of the row loop: what [res] is after it. *)
Definition row_body (timeDataArray : list Z) (res : u16string)
  : result u16string :=
  st <- row_columns ;;
  if addRow st then
    t <- index timeDataArray iRow ;;
    Ok (res ++ (rowStr st ++ to_wstring t ++ newline))
  else Ok res.

End Row.

(** [for (iRow = ...; iRow < endRow; iRow++)], with [count] iterations
    left. *)
Fixpoint row_loop (timeDataArray : list Z) (count : nat) (iRow : nat)
  (res : u16string) : result u16string :=
  match count with
  | O => Ok res
  | S count' =>
      res <- row_body iRow timeDataArray res ;;
      row_loop timeDataArray count' (S iRow) res
  end.

(** [operator()]: the text handed back in [outputs[0]]. *)
Definition convert2lineprotocol (startRow endRow : nat) : result u16string :=
  d0 <- index data 0 ;;
  timeDataArray <- int64_array d0 ;;
  row_loop timeDataArray (endRow - startRow) startRow [].

End Encoder.

(** ** The row as the specification describes it *)

(** The value of one field of one row, by kind. *)
Inductive Value :=
| Signed (z : Z)
| Unsigned (z : Z)
| Text (s : u16string)
| Float (x : float)
| Unsupported.

Definition signed (t : IntegerType) : bool :=
  match t with
  | Int8 | Int16 | Int32 | Int64 => true
  | UInt8 | UInt16 | UInt32 | UInt64 => false
  end.

(** The supported set of field column types: the integers of width 8, 16,
    32 and 64, text in its two representations, single and double. *)
Definition supported (t : ArrayType) : bool :=
  match t with
  | INT8 | UINT8 | INT16 | UINT16 | INT32 | UINT32 | INT64 | UINT64
  | CELL | MATLAB_STRING | DOUBLE | SINGLE => true
  | _ => false
  end.

(** The two text representations a tag column may have. *)
Definition textual (t : ArrayType) : bool :=
  match t with
  | CELL | MATLAB_STRING => true
  | _ => false
  end.

(** The value a field column holds at a row, when the row can be read. *)
Definition field_value (iRow : nat) (col : Array) : option Value :=
  match col with
  | IntegerArray t elems =>
      option_map (if signed t then Signed else Unsigned) (nth_error elems iRow)
  | FloatArray _ elems => option_map Float (nth_error elems iRow)
  | StringArray elems => option_map Text (nth_error elems iRow)
  | CellArray elems =>
      match nth_error elems iRow with
      | Some (CharArray chars) => Some (Text chars)
      | _ => None
      end
  | CharArray _ => Some Unsupported
  | OtherArray t => if supported t then None else Some Unsupported
  end.

(** The formatted value of a field, or nothing for a field that is
    skipped. *)
Definition render (v : Value) : option u16string :=
  match v with
  | Signed z => Some (to_wstring z ++ U "i")
  | Unsigned z => Some (to_wstring z ++ U "u")
  | Text s => Some (quote ++ s ++ quote)
  | Float x => if is_finite x then Some (to_wstring_double x) else None
  | Unsupported => None
  end.

(** The text a tag column holds at a row: empty for a column that is not
    text. *)
Definition tag_value (iRow : nat) (col : Array) : option u16string :=
  match col with
  | StringArray elems => nth_error elems iRow
  | CellArray elems =>
      match nth_error elems iRow with
      | Some (CharArray chars) => Some chars
      | _ => None
      end
  | OtherArray t => if textual t then None else Some []
  | _ => Some []
  end.

Fixpoint join (sep : u16string) (l : list u16string) : u16string :=
  match l with
  | [] => []
  | x :: rest =>
      match rest with
      | [] => x
      | _ :: _ => x ++ sep ++ join sep rest
      end
  end.

(** [name=value] *)
Definition pair_text (name value : u16string) : u16string :=
  name ++ U "=" ++ value.

(** The pairs of names and values, in order. *)
Fixpoint pairs (names vals : list u16string) : list u16string :=
  match names, vals with
  | name :: names', v :: vals' => pair_text name v :: pairs names' vals'
  | _, _ => []
  end.

(** The pairs of the fields of a row that are not skipped. *)
Fixpoint field_pairs (names : list u16string) (vals : list Value)
  : list u16string :=
  match names, vals with
  | name :: names', v :: vals' =>
      match render v with
      | Some s => pair_text name s :: field_pairs names' vals'
      | None => field_pairs names' vals'
      end
  | _, _ => []
  end.

(** The measurement and the tags of a line. *)
Definition line_head (measurement : u16string) (tags : list u16string)
  : u16string :=
  match tags with
  | [] => measurement
  | _ :: _ => measurement ++ U "," ++ join (U ",") tags
  end.

(** [measurement[,tag=v,...] field=v[,field=v,...] timestamp] and a
    newline. *)
Definition line (measurement : u16string) (tags fields : list u16string)
  (t : Z) : u16string :=
  line_head measurement tags ++ U " " ++ join (U ",") fields ++ U " " ++
  to_wstring t ++ newline.

(** The row buffer after the field loop, from the buffer before it and the
    pairs of the fields that are kept. *)
Definition close_fields (buf : u16string) (kept : list u16string)
  : u16string :=
  match kept with
  | [] => removelast buf ++ U " "
  | _ :: _ => buf ++ join (U ",") kept ++ U " "
  end.

(** The columns of the table behind the time column: the tag columns, then
    the field columns, and the values they hold at a row. *)
Inductive row_view (tagNames fieldNames : list u16string) (data : list Array)
  (iRow : nat) (tvals : list u16string) (fvals : list Value) : Prop :=
| RowView (time : Array) (tags fields rest : list Array)
    (view_data : data = time :: tags ++ fields ++ rest)
    (view_tag_count : length tags = length tagNames)
    (view_field_count : length fields = length fieldNames)
    (view_tag_values : map (tag_value iRow) tags = map Some tvals)
    (view_field_values : map (field_value iRow) fields = map Some fvals).

(** A value that the field loop formats: of a supported type, and finite
    when it is floating point. *)
Definition representable (v : Value) : bool :=
  match v with
  | Signed _ | Unsigned _ | Text _ => true
  | Float x => is_finite x
  | Unsupported => false
  end.

(** A value that the field loop skips. *)
Definition skipped (v : Value) : bool := negb (representable v).

(** What the switch of the field loop writes for a field of the row, on
    an empty buffer: nothing for a field that is skipped. *)
Definition field_text (fieldNames : list u16string) (col : Array)
  (iRow : nat) (name : u16string) : result (option u16string) :=
  '(st, is_nan) <-
    field_switch fieldNames iRow col (name ++ U "=") (mkRowState [] true 0 0) ;;
  Ok (if is_nan : bool then None else Some (rowStr st)).

(** A row that is added to the output, and the line it adds. *)
Definition row_added (measurementStr : u16string)
  (fieldNames tagNames : list u16string) (data : list Array) (iRow : nat)
  : Prop :=
  exists st : RowState,
    row_columns measurementStr fieldNames tagNames data iRow = Ok st /\
    addRow st = true.

Definition row_line (measurementStr : u16string)
  (fieldNames tagNames : list u16string) (data : list Array)
  (time : list Z) (iRow : nat) (l : u16string) : Prop :=
  exists (st : RowState) (t : Z),
    row_columns measurementStr fieldNames tagNames data iRow = Ok st /\
    addRow st = true /\
    nth_error time iRow = Some t /\
    l = rowStr st ++ to_wstring t ++ newline.

(** ** The shape of the row buffer *)

(** The separator after the tag at offset [it]. *)
Definition tag_sep (tagNames : list u16string) (it : nat) : u16string :=
  if it =? lastTag tagNames then U " " else U ",".

(** The separator after a kept field at offset [it]. *)
Definition field_sep (fieldNames : list u16string) (it : nat) : u16string :=
  if it =? lastMinusOne fieldNames then U " " else U ",".

(** The measurement and the separator after it. *)
Definition row_prefix (measurementStr : u16string)
  (tagNames : list u16string) : u16string :=
  measurementStr ++ (if isTagNamesEmpty tagNames then U " " else U ",").

(** What the field loop keeps true of a row that is still to be added:
    the buffer starts with the measurement and its separator, and nothing
    follows them only while every field so far was skipped. *)
Definition prefix_kept (measurementStr : u16string)
  (tagNames : list u16string) (it : nat) (st : RowState) : Prop :=
  nanNum st <= it /\
  (addRow st = true ->
   exists body : u16string,
     rowStr st = row_prefix measurementStr tagNames ++ body /\
     (body = [] -> nanNum st = it)).

(** ** Tables to run the encoder on *)

(** Three rows: a time column, a tag, an integer field, a double field
    that is not a number from the second row on, and a logical column. *)
Definition demo_data : list Array :=
  [ IntegerArray Int64 [1700000000; 1700000001; 1700000002]%Z;
    StringArray [U "a"; U "b"; U "c"];
    IntegerArray Int32 [(-5)%Z; 6%Z; 7%Z];
    FloatArray Double [3.5; nan; nan]%float;
    OtherArray LOGICAL ].

(** The same table with the float field before the integer field. *)
Definition mixed_data : list Array :=
  [ IntegerArray Int64 [1700000000; 1700000001; 1700000002]%Z;
    StringArray [U "a"; U "b"; U "c"];
    FloatArray Double [3.5; nan; nan]%float;
    IntegerArray Int32 [(-5)%Z; 6%Z; 7%Z];
    OtherArray LOGICAL ].

(** One row with a float field that is not a number between two integer
    fields. *)
Definition gap_data : list Array :=
  [ IntegerArray Int64 [0%Z];
    IntegerArray Int32 [1%Z];
    FloatArray Double [nan]%float;
    IntegerArray Int32 [3%Z] ].

(** A table whose only float field is missing from its second row on, next
    to a column of a type the encoder does not format. *)
Definition sparse_data : list Array :=
  [ IntegerArray Int64 [1700000000; 1700000001; 1700000002]%Z;
    StringArray [U "a"; U "b"; U "c"];
    FloatArray Double [3.5; nan; nan]%float;
    OtherArray LOGICAL ].

(** ** Tactics *)

(** Two results that hold the same state, up to the bracketing of the
    appended text. *)
Ltac same_state :=
  unfold next_col, append, pair_text; simpl;
  repeat rewrite <- app_assoc; simpl;
  rewrite ?app_nil_r;
  reflexivity.

(** ** The encoder at work *)

Example to_wstring_neg : to_wstring (-5) = U "-5".
Proof. reflexivity. Qed.

Example to_wstring_zero : to_wstring 0 = U "0".
Proof. reflexivity. Qed.

Example to_wstring_double_3_5 : to_wstring_double 3.5 = U "3.500000".
Proof. vm_compute. reflexivity. Qed.

Example to_wstring_double_neg : to_wstring_double (-0.375) = U "-0.375000".
Proof. vm_compute. reflexivity. Qed.

Example to_wstring_double_big :
  to_wstring_double 1e22 = U "10000000000000000000000.000000".
Proof. vm_compute. reflexivity. Qed.

Example demo_output :
  convert2lineprotocol (U "cpu") [U "n"; U "x"; U "b"] [U "host"] demo_data 0 3
  = Ok (U "cpu,host=a n=-5i,x=3.500000 1700000000" ++ newline ++
        U "cpu,host=b n=6i 1700000001" ++ newline ++
        U "cpu,host=c n=7i 1700000002" ++ newline).
Proof. vm_compute. reflexivity. Qed.

Example mixed_output :
  convert2lineprotocol (U "cpu") [U "x"; U "n"; U "b"] [U "host"] mixed_data 0 3
  = Ok (U "cpu,host=a x=3.500000,n=-5i 1700000000" ++ newline ++
        U "cpu,host=b n=6i 1700000001" ++ newline ++
        U "cpu,host=c n=7i 1700000002" ++ newline).
Proof. vm_compute. reflexivity. Qed.

Example gap_output :
  convert2lineprotocol (U "m") [U "a"; U "b"; U "c"] [] gap_data 0 1
  = Ok (U "m a=1i,c=3i 0" ++ newline).
Proof. vm_compute. reflexivity. Qed.

Example sparse_output :
  convert2lineprotocol (U "cpu") [U "x"; U "b"] [U "host"] sparse_data 0 3
  = Ok (U "cpu,host=a x=3.500000 1700000000" ++ newline).
Proof. vm_compute. reflexivity. Qed.

Example empty_range_output :
  convert2lineprotocol (U "cpu") [U "x"; U "b"] [U "host"] sparse_data 2 2
  = Ok [].
Proof. reflexivity. Qed.

Example cell_text_output :
  convert2lineprotocol (U "cpu") [U "state"] [U "host"]
    [ IntegerArray Int64 [17%Z];
      CellArray [CharArray (U "a")];
      CellArray [CharArray (U "ok")] ] 0 1
  = Ok (U "cpu,host=a state=" ++ quote ++ U "ok" ++ quote ++ U " 17" ++
        newline).
Proof. vm_compute. reflexivity. Qed.

(** A table without field columns is outside the contract of the encoder:
    no field is skipped, so every row is added. *)
Example no_field_columns_output :
  convert2lineprotocol (U "cpu") [] [U "host"] sparse_data 0 2
  = Ok (U "cpu,host=a 1700000000" ++ newline ++
        U "cpu,host=b 1700000001" ++ newline).
Proof. vm_compute. reflexivity. Qed.

(** A row past the end of a column ends the call with an exception. *)
Example row_out_of_range :
  convert2lineprotocol (U "cpu") [U "x"; U "b"] [U "host"] sparse_data 2 4
  = Throw InvalidArrayIndex.
Proof. vm_compute. reflexivity. Qed.

(** ** Text and list lemmas *)

Lemma join_cons (sep x y : u16string) (l : list u16string) :
  join sep (x :: y :: l) = x ++ sep ++ join sep (y :: l).
Proof. reflexivity. Qed.

(** Pieces that each carry their separator, against [join]. *)
Lemma concat_sep_join (sep x : u16string) (l : list u16string) :
  concat (map (fun p => p ++ sep) l) ++ x = join sep (l ++ [x]).
Proof.
  induction l as [|p l IH]; simpl.
  - reflexivity.
  - rewrite <- app_assoc, IH.
    destruct (l ++ [x]) as [|y l'] eqn:E.
    + destruct l; discriminate.
    + simpl. now rewrite <- app_assoc.
Qed.

Lemma concat_sep_last (sep : u16string) (l : list u16string) :
  l <> [] ->
  concat (map (fun p => p ++ sep) l) = join sep l ++ sep.
Proof.
  intros Hl.
  destruct (exists_last Hl) as [l' [x ->]].
  rewrite map_app, concat_app; simpl.
  rewrite app_nil_r, app_assoc, concat_sep_join.
  reflexivity.
Qed.

Lemma length_map_eq (A B C : Type) (f : A -> B) (g : C -> B)
  (l : list A) (l' : list C) :
  map f l = map g l' -> length l = length l'.
Proof.
  intros H.
  rewrite <- (length_map f l), H.
  apply length_map.
Qed.

Lemma index_nth (A : Type) (l : list A) (i : nat) (x : A) :
  nth_error l i = Some x -> index l i = Ok x.
Proof. unfold index. intros ->. reflexivity. Qed.

Lemma index_middle (A : Type) (pre post : list A) (x : A) :
  index (pre ++ x :: post) (length pre) = Ok x.
Proof.
  apply index_nth.
  rewrite nth_error_app2, Nat.sub_diag by lia.
  reflexivity.
Qed.

Lemma pop_back_snoc (s : u16string) (c : ascii) :
  pop_back (s ++ [c]) = Ok s.
Proof.
  unfold pop_back.
  destruct (s ++ [c]) eqn:E.
  - destruct s; discriminate.
  - rewrite <- E, removelast_last. reflexivity.
Qed.

Lemma pop_back_nonempty (s : u16string) :
  s <> [] -> pop_back s = Ok (removelast s).
Proof. destruct s; [congruence|reflexivity]. Qed.

(** A list as long as one that ends in [x] ends in some element too. *)
Lemma split_last (A B : Type) (l : list A) (a : list B) (x : B) :
  length l = length (a ++ [x]) ->
  exists l' y, l = l' ++ [y] /\ length l' = length a.
Proof.
  intros Hlen.
  assert (Hne : l <> []).
  { intros ->. rewrite length_app in Hlen. simpl in Hlen. lia. }
  destruct (exists_last Hne) as [l' [y ->]].
  exists l', y. split; [reflexivity|].
  rewrite !length_app in Hlen. simpl in Hlen. lia.
Qed.

Lemma map_snoc_inv (A B : Type) (f : A -> option B) (l : list A) (x : A)
  (l' : list B) (y : B) :
  map f (l ++ [x]) = map Some (l' ++ [y]) ->
  map f l = map Some l' /\ f x = Some y.
Proof.
  rewrite !map_app. simpl. intros H.
  apply app_inj_tail in H. destruct H as [H1 H2].
  split; [exact H1|exact H2].
Qed.

Lemma field_pairs_app (names names' : list u16string) :
  forall (vals vals' : list Value),
  length names = length vals ->
  field_pairs (names ++ names') (vals ++ vals') =
  field_pairs names vals ++ field_pairs names' vals'.
Proof.
  induction names as [|name names IH]; intros [|v vals] vals' Hlen;
    try discriminate; simpl.
  - reflexivity.
  - injection Hlen as Hlen.
    rewrite (IH vals vals' Hlen).
    destruct (render v); reflexivity.
Qed.

Lemma field_pairs_length (names : list u16string) :
  forall vals : list Value,
  length (field_pairs names vals) <= length names.
Proof.
  induction names as [|name names IH]; intros [|v vals]; simpl; try lia.
  specialize (IH vals). destruct (render v); simpl; lia.
Qed.

(** ** The two loops against the row view *)

Section RowFacts.

Variable measurementStr : u16string.
Variables fieldNames tagNames : list u16string.
Variable data : list Array.
Variable iRow : nat.

(** The switch of the field loop formats a value as [render] does, and
    counts a value that [render] leaves out as missing. *)
Lemma field_switch_value (col : Array) (v : Value) (temp : u16string)
  (st : RowState) :
  field_value iRow col = Some v ->
  field_switch fieldNames iRow col temp st =
  Ok (match render v with
      | Some s => (append st (temp ++ s), false)
      | None => (missing fieldNames st, true)
      end).
Proof.
  intros Hv.
  destruct col as [t elems|t elems|elems|elems|chars|t]; simpl in Hv.
  - destruct (nth_error elems iRow) as [z|] eqn:E; [|discriminate].
    destruct t; simpl in Hv; injection Hv as <-;
      unfold field_switch, integer_entry, index; simpl; rewrite E; reflexivity.
  - destruct (nth_error elems iRow) as [x|] eqn:E; [|discriminate].
    injection Hv as <-.
    destruct t; unfold field_switch, double_entry, index; simpl; rewrite E;
      simpl; destruct (is_finite x); reflexivity.
  - destruct (nth_error elems iRow) as [s|] eqn:E; [|discriminate].
    injection Hv as <-.
    unfold field_switch, string_entry, index; simpl; rewrite E; reflexivity.
  - destruct (nth_error elems iRow) as [c|] eqn:E; [|discriminate].
    destruct c; try discriminate.
    injection Hv as <-.
    unfold field_switch, cell_entry, index; simpl; rewrite E; reflexivity.
  - injection Hv as <-. reflexivity.
  - destruct t; simpl in Hv; try discriminate; injection Hv as <-; reflexivity.
Qed.

(** The body of the tag loop on a column whose text at the row is [v]. *)
Lemma tag_body_value (it : nat) (name v : u16string) (col : Array)
  (st : RowState) :
  index data (S (colIndx st)) = Ok col ->
  tag_value iRow col = Some v ->
  tag_body tagNames data iRow it name st =
  Ok (mkRowState
        (rowStr st ++ pair_text name v ++
         (if it =? lastTag tagNames then U " " else U ","))
        (addRow st) (nanNum st) (S (colIndx st))).
Proof.
  intros Hcol Hv.
  unfold tag_body; simpl. rewrite Hcol; simpl.
  assert (Hsw :
    match getType col with
    | CELL =>
        strEntry <- cell_entry col iRow ;;
        Ok (append (next_col (append st (name ++ U "="))) strEntry)
    | MATLAB_STRING =>
        entry <- string_entry col iRow ;;
        Ok (append (next_col (append st (name ++ U "="))) entry)
    | _ => Ok (next_col (append st (name ++ U "=")))
    end = Ok (mkRowState (rowStr st ++ pair_text name v)
                (addRow st) (nanNum st) (S (colIndx st)))).
  { unfold pair_text.
    destruct col as [t elems|t elems|elems|elems|chars|t]; simpl in Hv.
    - injection Hv as <-. destruct t; same_state.
    - injection Hv as <-. destruct t; same_state.
    - unfold string_entry, index; simpl. rewrite Hv. same_state.
    - unfold cell_entry, index; simpl.
      destruct (nth_error elems iRow) as [c|]; [|discriminate].
      destruct c; try discriminate. injection Hv as <-. same_state.
    - injection Hv as <-. same_state.
    - destruct t; simpl in Hv; try discriminate; injection Hv as <-;
        same_state. }
  unfold next_col, append in *; simpl in *.
  rewrite Hsw; simpl.
  destruct (it =? lastTag tagNames); same_state.
Qed.

(** The tag loop over the last tags of the table appends their pairs,
    joined by commas, and the space that ends the tags. *)
Lemma tag_loop_view (names : list u16string) :
  forall (cols : list Array) (vals : list u16string) (pre post : list Array)
         (it : nat) (st : RowState),
  names <> [] ->
  data = pre ++ cols ++ post ->
  length pre = S (colIndx st) ->
  length cols = length names ->
  map (tag_value iRow) cols = map Some vals ->
  it + length names = length tagNames ->
  tag_loop tagNames data iRow names it st =
  Ok (mkRowState
        (rowStr st ++ join (U ",") (pairs names vals) ++ U " ")
        (addRow st) (nanNum st) (colIndx st + length names)).
Proof.
  induction names as [|name rest IH]; intros cols vals pre post it st
    Hne Hdata Hpre Hlen Hvals Hit; [congruence|].
  destruct cols as [|col cols]; [discriminate|].
  destruct vals as [|v vals]; [discriminate|].
  simpl in Hlen, Hvals, Hit. injection Hvals as Hv Hvals.
  assert (Hcol : index data (S (colIndx st)) = Ok col).
  { rewrite Hdata, <- Hpre. simpl. apply index_middle. }
  simpl tag_loop. rewrite (tag_body_value it name _ Hcol Hv). simpl.
  destruct rest as [|name' rest]; simpl in Hit.
  - destruct (Nat.eqb_spec it (lastTag tagNames)) as [_|Hn];
      [|unfold lastTag in Hn; lia].
    simpl. destruct vals; simpl; do 2 f_equal; lia.
  - destruct (Nat.eqb_spec it (lastTag tagNames)) as [He|_];
      [unfold lastTag in He; lia|].
    destruct cols as [|col' cols]; [simpl in Hlen; lia|].
    destruct vals as [|v' vals]; [discriminate Hvals|].
    rewrite (IH (col' :: cols) (v' :: vals) (pre ++ [col]) post).
    + simpl. do 2 f_equal; [|lia].
      repeat rewrite <- app_assoc. reflexivity.
    + discriminate.
    + rewrite Hdata, <- app_assoc. reflexivity.
    + rewrite length_app; simpl; lia.
    + simpl in *; lia.
    + exact Hvals.
    + simpl; lia.
Qed.

(** The body of the field loop on a column whose value at the row is
    [v]. *)
Lemma field_body_value (it : nat) (name : u16string) (col : Array)
  (v : Value) (st : RowState) :
  index data (S (colIndx st)) = Ok col ->
  field_value iRow col = Some v ->
  field_body fieldNames data iRow it name st =
  match render v with
  | Some s =>
      Ok (mkRowState
            (rowStr st ++ pair_text name s ++
             (if it =? lastMinusOne fieldNames then U " " else U ","))
            (addRow st) (nanNum st) (S (colIndx st)))
  | None =>
      let missed := missing fieldNames (next_col st) in
      if it =? lastMinusOne fieldNames then
        s <- pop_back (rowStr st) ;;
        Ok (mkRowState (s ++ U " ")
              (addRow missed) (nanNum missed) (colIndx missed))
      else Ok missed
  end.
Proof.
  intros Hcol Hv.
  unfold field_body; simpl. rewrite Hcol; simpl.
  rewrite (field_switch_value _ _ _ Hv).
  destruct (render v) as [s|]; simpl.
  - rewrite andb_false_r.
    destruct (it =? lastMinusOne fieldNames); same_state.
  - rewrite andb_true_r.
    destruct (it =? lastMinusOne fieldNames); reflexivity.
Qed.

Lemma field_loop_app (names names' : list u16string) :
  forall (it : nat) (st : RowState),
  field_loop fieldNames data iRow (names ++ names') it st =
  (st' <- field_loop fieldNames data iRow names it st ;;
   field_loop fieldNames data iRow names' (it + length names) st').
Proof.
  induction names as [|name names IH]; intros it st; simpl.
  - now rewrite Nat.add_0_r.
  - destruct (field_body fieldNames data iRow it name st) as [st1|e]; simpl.
    + rewrite IH. now rewrite Nat.add_succ_r.
    + reflexivity.
Qed.

(** The field loop over fields before the last one: each field that is kept
    appends its pair and a comma, each field that is skipped only counts. *)
Lemma field_loop_inner (names : list u16string) :
  forall (cols : list Array) (vals : list Value) (pre post : list Array)
         (it : nat) (st : RowState),
  data = pre ++ cols ++ post ->
  length pre = S (colIndx st) ->
  length cols = length names ->
  map (field_value iRow) cols = map Some vals ->
  it + length names < length fieldNames ->
  nanNum st + length names < length fieldNames ->
  exists n : nat,
    n + length (field_pairs names vals) = nanNum st + length names /\
    field_loop fieldNames data iRow names it st =
    Ok (mkRowState
          (rowStr st ++
           concat (map (fun p => p ++ U ",") (field_pairs names vals)))
          (addRow st) n (colIndx st + length names)).
Proof.
  induction names as [|name rest IH]; intros cols vals pre post it st
    Hdata Hpre Hlen Hvals Hit Hnan.
  - exists (nanNum st). simpl. split; [lia|].
    rewrite app_nil_r, Nat.add_0_r. destruct st; reflexivity.
  - destruct cols as [|col cols]; [discriminate|].
    destruct vals as [|v vals]; [discriminate|].
    simpl in Hlen, Hvals, Hit, Hnan. injection Hvals as Hv Hvals.
    assert (Hcol : index data (S (colIndx st)) = Ok col).
    { rewrite Hdata, <- Hpre. simpl. apply index_middle. }
    simpl field_loop. rewrite (field_body_value it name _ Hcol Hv).
    destruct (Nat.eqb_spec it (lastMinusOne fieldNames)) as [He|_];
      [unfold lastMinusOne in He; lia|].
    simpl field_pairs.
    destruct (render v) as [s|]; cbn [bind].
    + destruct (IH cols vals (pre ++ [col]) post (S it)
                  (mkRowState (rowStr st ++ pair_text name s ++ U ",")
                     (addRow st) (nanNum st) (S (colIndx st))))
        as [n [Hn Hloop]]; simpl; try lia; try assumption.
      * rewrite Hdata, <- app_assoc. reflexivity.
      * rewrite length_app; simpl; lia.
      * exists n. split; [simpl in *; lia|].
        simpl in Hloop. rewrite Hloop. do 2 f_equal; [|lia].
        repeat rewrite <- app_assoc. reflexivity.
    + destruct (IH cols vals (pre ++ [col]) post (S it)
                  (missing fieldNames (next_col st)))
        as [n [Hn Hloop]]; simpl; try lia; try assumption.
      * rewrite Hdata, <- app_assoc. reflexivity.
      * rewrite length_app; simpl; lia.
      * exists n. split; [simpl in *; lia|].
        simpl in Hloop. rewrite Hloop.
        destruct (Nat.eqb_spec (length fieldNames) (nanNum st + 1)); [lia|].
        do 2 f_equal. lia.
Qed.

(** The whole field loop of a row: the pairs of the kept fields joined by
    commas and closed by a space; the row is dropped when no field is
    kept. *)
Lemma field_loop_view (cols : list Array) (vals : list Value)
  (pre post : list Array) (st : RowState) :
  fieldNames <> [] ->
  data = pre ++ cols ++ post ->
  length pre = S (colIndx st) ->
  length cols = length fieldNames ->
  map (field_value iRow) cols = map Some vals ->
  nanNum st = 0 ->
  rowStr st <> [] ->
  field_loop fieldNames data iRow fieldNames 0 st =
  Ok (mkRowState
        (close_fields (rowStr st) (field_pairs fieldNames vals))
        (match field_pairs fieldNames vals with
         | [] => false
         | _ :: _ => addRow st
         end)
        (length fieldNames - length (field_pairs fieldNames vals))
        (colIndx st + length fieldNames)).
Proof.
  intros Hne Hdata Hpre Hlen Hvals Hnan Hbuf.
  assert (Hlenv : length vals = length fieldNames).
  { rewrite <- Hlen. symmetry. exact (length_map_eq _ _ _ _ Hvals). }
  destruct (exists_last Hne) as [names [name Hnames]].
  rewrite Hnames in Hlen, Hlenv.
  destruct (split_last _ _ _ Hlen) as [cols' [col [-> Hlen']]].
  destruct (split_last _ _ _ Hlenv) as [vals' [v [-> Hlenv']]].
  apply map_snoc_inv in Hvals. destruct Hvals as [Hvals Hv].
  assert (Hnf : length fieldNames = S (length names)).
  { rewrite Hnames, length_app. simpl. lia. }
  destruct (field_loop_inner names cols' vals' pre ([col] ++ post) 0 st)
    as [n [Hn Hloop]]; try assumption; try lia.
  { rewrite Hdata, <- app_assoc. reflexivity. }
  rewrite Hnames at 2. rewrite field_loop_app, Hloop. cbn [bind field_loop].
  assert (Hcol : index data (S (colIndx st + length names)) = Ok col).
  { rewrite Hdata.
    replace (pre ++ (cols' ++ [col]) ++ post)
      with ((pre ++ cols') ++ col :: post)
      by (repeat rewrite <- app_assoc; reflexivity).
    replace (S (colIndx st + length names)) with (length (pre ++ cols'))
      by (rewrite length_app; lia).
    apply index_middle. }
  erewrite field_body_value; [|simpl; exact Hcol|exact Hv].
  cbn [rowStr addRow nanNum colIndx].
  assert (Hfp : field_pairs fieldNames (vals' ++ [v]) =
                field_pairs names vals' ++ field_pairs [name] [v]).
  { rewrite Hnames. apply field_pairs_app. now symmetry. }
  rewrite Hfp. clear Hfp.
  destruct (Nat.eqb_spec (0 + length names) (lastMinusOne fieldNames))
    as [_|Hd]; [|unfold lastMinusOne in Hd; lia].
  rewrite Hnan in Hn. simpl in Hn.
  simpl field_pairs.
  set (kept := field_pairs names vals') in *.
  destruct (render v) as [s|]; cbn [bind].
  - assert (Ht : (rowStr st ++ concat (map (fun p => p ++ U ",") kept)) ++
                 pair_text name s ++ U " " =
                 close_fields (rowStr st) (kept ++ [pair_text name s])).
    { unfold close_fields.
      destruct (kept ++ [pair_text name s]) as [|p l] eqn:E.
      { destruct kept; discriminate. }
      rewrite <- E, <- concat_sep_join.
      repeat rewrite <- app_assoc. reflexivity. }
    rewrite Ht. rewrite length_app. simpl length.
    destruct (kept ++ [pair_text name s]) as [|p l] eqn:E.
    { destruct kept; discriminate. }
    do 2 f_equal; lia.
  - rewrite app_nil_r. unfold missing, next_col.
    cbn [rowStr addRow nanNum colIndx].
    destruct kept as [|p l] eqn:E.
    + simpl in Hn. simpl concat. rewrite app_nil_r.
      rewrite (pop_back_nonempty Hbuf); cbn [bind].
      destruct (Nat.eqb_spec (length fieldNames) (n + 1)); [|lia].
      unfold close_fields. simpl length.
      do 2 f_equal; lia.
    + rewrite concat_sep_last by discriminate.
      change (U ",") with [","%char].
      rewrite !app_assoc, pop_back_snoc; cbn [bind].
      simpl in Hn.
      destruct (Nat.eqb_spec (length fieldNames) (n + 1)); [lia|].
      unfold close_fields. rewrite <- !app_assoc. simpl length.
      do 2 f_equal; lia.
Qed.

Lemma pairs_length (names vals : list u16string) :
  length vals = length names ->
  length (pairs names vals) = length names.
Proof.
  revert vals.
  induction names as [|name names IH]; intros [|v vals] Hlen;
    try discriminate; simpl; [reflexivity|].
  f_equal. apply IH. now injection Hlen.
Qed.

(** The row buffer after the tag loop ends in the space before the
    fields. *)
Lemma tag_loop_row (tvals : list u16string) (cols post : list Array)
  (time : Array) :
  data = time :: cols ++ post ->
  length cols = length tagNames ->
  map (tag_value iRow) cols = map Some tvals ->
  tag_loop tagNames data iRow tagNames 0
    (row_start measurementStr tagNames) =
  Ok (mkRowState
        (line_head measurementStr (pairs tagNames tvals) ++ U " ")
        true 0 (length tagNames)).
Proof.
  intros Hdata Hlen Hvals.
  unfold row_start, isTagNamesEmpty.
  destruct tagNames as [|name names] eqn:E.
  - reflexivity.
  - rewrite <- E in *.
    assert (Hne : tagNames <> []) by (rewrite E; discriminate).
    replace (length tagNames <=? 0) with false
      by (rewrite E; reflexivity).
    rewrite tag_loop_view
      with (cols := cols) (vals := tvals) (pre := [time]) (post := post);
      simpl; try assumption; try reflexivity.
    assert (Hp : length (pairs tagNames tvals) = length tagNames).
    { apply pairs_length. rewrite <- Hlen. symmetry.
      exact (length_map_eq _ _ _ _ Hvals). }
    unfold line_head.
    destruct (pairs tagNames tvals) as [|p l].
    + rewrite E in Hp. discriminate.
    + f_equal. f_equal. repeat rewrite <- app_assoc. reflexivity.
Qed.

(** The two loops of a row. *)
Lemma row_columns_view (tvals : list u16string) (fvals : list Value) :
  fieldNames <> [] ->
  row_view tagNames fieldNames data iRow tvals fvals ->
  row_columns measurementStr fieldNames tagNames data iRow =
  Ok (mkRowState
        (close_fields
           (line_head measurementStr (pairs tagNames tvals) ++ U " ")
           (field_pairs fieldNames fvals))
        (match field_pairs fieldNames fvals with
         | [] => false
         | _ :: _ => true
         end)
        (length fieldNames - length (field_pairs fieldNames fvals))
        (length tagNames + length fieldNames)).
Proof.
  intros Hne [time tags fields rest Hdata Htn Hfn Htv Hfv].
  unfold row_columns.
  rewrite tag_loop_row
    with (tvals := tvals) (cols := tags) (post := fields ++ rest)
         (time := time); try assumption.
  cbn [bind].
  rewrite field_loop_view
    with (cols := fields) (vals := fvals) (pre := time :: tags)
         (post := rest); simpl; try assumption; try reflexivity.
  - now rewrite Htn.
  - destruct (line_head measurementStr (pairs tagNames tvals));
      discriminate.
Qed.

(** What a row adds to the output. *)
Lemma row_body_view (tvals : list u16string) (fvals : list Value)
  (timeDataArray : list Z) (res : u16string) :
  fieldNames <> [] ->
  row_view tagNames fieldNames data iRow tvals fvals ->
  row_body measurementStr fieldNames tagNames data iRow timeDataArray res =
  match field_pairs fieldNames fvals with
  | [] => Ok res
  | _ :: _ =>
      t <- index timeDataArray iRow ;;
      Ok (res ++ line measurementStr (pairs tagNames tvals)
                   (field_pairs fieldNames fvals) t)
  end.
Proof.
  intros Hne Hview.
  unfold row_body. rewrite (row_columns_view Hne Hview). cbn [bind addRow].
  destruct (field_pairs fieldNames fvals) as [|p l] eqn:E.
  - reflexivity.
  - destruct (index timeDataArray iRow) as [t|e]; [|reflexivity].
    cbn [bind rowStr]. unfold close_fields, line. rewrite <- E.
    repeat rewrite <- app_assoc. reflexivity.
Qed.

End RowFacts.

(** ** The row loop *)

Section LoopFacts.

Variable measurementStr : u16string.
Variables fieldNames tagNames : list u16string.
Variable data : list Array.

#[local] Abbreviation row_body' :=
  (row_body measurementStr fieldNames tagNames data).
#[local] Abbreviation row_loop' :=
  (row_loop measurementStr fieldNames tagNames data).
#[local] Abbreviation convert :=
  (convert2lineprotocol measurementStr fieldNames tagNames data).

(** A row only appends to the output. *)
Lemma row_body_acc (iRow : nat) (timeDataArray : list Z) (res : u16string) :
  row_body' iRow timeDataArray res =
  (out <- row_body' iRow timeDataArray [] ;; Ok (res ++ out)).
Proof.
  unfold row_body.
  destruct (row_columns measurementStr fieldNames tagNames data iRow)
    as [st|e]; cbn [bind]; [|reflexivity].
  destruct (addRow st); cbn [bind].
  - destruct (index timeDataArray iRow); reflexivity.
  - now rewrite app_nil_r.
Qed.

Lemma row_loop_acc (timeDataArray : list Z) (count : nat) :
  forall (iRow : nat) (res : u16string),
  row_loop' timeDataArray count iRow res =
  (out <- row_loop' timeDataArray count iRow [] ;; Ok (res ++ out)).
Proof.
  induction count as [|count IH]; intros iRow res; simpl.
  - now rewrite app_nil_r.
  - rewrite row_body_acc.
    destruct (row_body' iRow timeDataArray []) as [out|e]; cbn [bind];
      [|reflexivity].
    rewrite (IH (S iRow) (res ++ out)), (IH (S iRow) out).
    destruct (row_loop' timeDataArray count (S iRow) []) as [out'|e];
      cbn [bind]; [|reflexivity].
    now rewrite app_assoc.
Qed.

Lemma row_loop_add (timeDataArray : list Z) (a b : nat) :
  forall (iRow : nat) (res : u16string),
  row_loop' timeDataArray (a + b) iRow res =
  (r <- row_loop' timeDataArray a iRow res ;;
   row_loop' timeDataArray b (iRow + a) r).
Proof.
  induction a as [|a IH]; intros iRow res; simpl.
  - now rewrite Nat.add_0_r.
  - destruct (row_body' iRow timeDataArray res) as [r|e]; cbn [bind];
      [|reflexivity].
    rewrite IH. now rewrite Nat.add_succ_r.
Qed.

(** The output over a range, around one of its rows. *)
Lemma convert_around (startRow endRow iRow : nat) (res : u16string) :
  startRow <= iRow < endRow ->
  convert startRow endRow = Ok res ->
  exists (time : list Z) (before out after : u16string),
    nth_error data 0 = Some (IntegerArray Int64 time) /\
    convert startRow iRow = Ok before /\
    row_body' iRow time [] = Ok out /\
    convert (S iRow) endRow = Ok after /\
    res = before ++ out ++ after.
Proof.
  intros Hin Hres. unfold convert2lineprotocol in *. unfold index in *.
  destruct (nth_error data 0) as [d0|]; [|discriminate].
  cbn [bind] in *.
  destruct d0 as [t time| | | | |]; try discriminate.
  destruct t; try discriminate.
  cbn [bind int64_array] in *.
  replace (endRow - startRow)
    with ((iRow - startRow) + (1 + (endRow - S iRow))) in Hres by lia.
  rewrite row_loop_add in Hres.
  destruct (row_loop' time (iRow - startRow) startRow []) as [before|e];
    [|discriminate].
  cbn [bind] in Hres.
  replace (startRow + (iRow - startRow)) with iRow in Hres by lia.
  rewrite row_loop_add in Hres. simpl in Hres.
  rewrite row_body_acc in Hres.
  destruct (row_body' iRow time []) as [out|e] eqn:Hout; [|discriminate].
  cbn [bind] in Hres. rewrite Nat.add_1_r in Hres.
  rewrite row_loop_acc in Hres.
  destruct (row_loop' time (endRow - S iRow) (S iRow) []) as [after|e];
    [|discriminate].
  cbn [bind] in Hres. injection Hres as <-.
  exists time, before, out, after.
  repeat split; try reflexivity; try assumption.
  now rewrite <- app_assoc.
Qed.

(** A row adds its line, or nothing. *)
Lemma row_body_cases (iRow : nat) (time : list Z) (out : u16string) :
  row_body' iRow time [] = Ok out ->
  row_line measurementStr fieldNames tagNames data time iRow out \/
  (out = [] /\ ~ row_added measurementStr fieldNames tagNames data iRow).
Proof.
  unfold row_body, row_line, row_added.
  destruct (row_columns measurementStr fieldNames tagNames data iRow)
    as [st|e]; cbn [bind]; [|discriminate].
  destruct (addRow st) eqn:Ha.
  - unfold index. destruct (nth_error time iRow) as [t|] eqn:Ht;
      [|discriminate].
    cbn [bind]. intros H. injection H as <-.
    left. exists st, t. repeat split; assumption.
  - intros H. injection H as <-.
    right. split; [reflexivity|].
    intros [st' [Hst' Ha']]. injection Hst' as <-. congruence.
Qed.

(** The output of the row loop is the lines of the rows that are added, in
    the order of the rows. *)
Lemma row_loop_lines (time : list Z) (count : nat) :
  forall (startRow : nat) (res : u16string),
  row_loop' time count startRow [] = Ok res ->
  exists (rows : list nat) (lines : list u16string),
    StronglySorted lt rows /\
    (forall i : nat,
       In i rows <->
       startRow <= i < startRow + count /\
       row_added measurementStr fieldNames tagNames data i) /\
    Forall2 (row_line measurementStr fieldNames tagNames data time)
      rows lines /\
    res = concat lines /\
    length rows <= count.
Proof.
  induction count as [|count IH]; intros startRow res Hloop.
  - injection Hloop as <-. exists [], [].
    split; [constructor|]. split; [|repeat constructor].
    intros i. simpl. split; [tauto|lia].
  - simpl in Hloop.
    destruct (row_body' startRow time []) as [out|e] eqn:Hout;
      [|discriminate].
    cbn [bind] in Hloop. rewrite row_loop_acc in Hloop.
    destruct (row_loop' time count (S startRow) []) as [rest|e] eqn:Hrest;
      [|discriminate].
    cbn [bind] in Hloop. injection Hloop as <-.
    destruct (IH _ _ Hrest) as [rows [lines [Hs [Hin [Hl [-> Hlen]]]]]].
    destruct (row_body_cases _ _ Hout) as [Hline|[-> Hno]].
    + exists (startRow :: rows), (out :: lines).
      split; [|split; [|split; [|split]]].
      * constructor; [exact Hs|].
        apply Forall_forall. intros i Hi. apply Hin in Hi. lia.
      * intros i. simpl. rewrite Hin. split.
        -- intros [<-|[Hr Ha]]; [|split; [lia|exact Ha]].
           split; [lia|].
           destruct Hline as [st [t [Hst [Ha _]]]]. exists st. now split.
        -- intros [Hr Ha].
           destruct (Nat.eq_dec startRow i) as [->|Hd]; [now left|right].
           split; [lia|exact Ha].
      * constructor; assumption.
      * reflexivity.
      * simpl. lia.
    + exists rows, lines.
      split; [exact Hs|]. split; [|split; [exact Hl|split; [reflexivity|lia]]].
      intros i. rewrite Hin. split.
      * intros [Hr Ha]. split; [lia|exact Ha].
      * intros [Hr Ha]. split; [|exact Ha].
        destruct (Nat.eq_dec startRow i) as [->|Hd]; [contradiction|lia].
Qed.

(** The exceptions of the call before the row loop. *)
Lemma convert_unfold (startRow endRow : nat) (res : u16string) :
  convert startRow endRow = Ok res ->
  exists time : list Z,
    nth_error data 0 = Some (IntegerArray Int64 time) /\
    row_loop' time (endRow - startRow) startRow [] = Ok res.
Proof.
  unfold convert2lineprotocol, index.
  destruct (nth_error data 0) as [d0|]; [|discriminate].
  cbn [bind].
  destruct d0 as [t time| | | | |]; try discriminate.
  destruct t; try discriminate.
  cbn [bind int64_array]. intros H. exists time. now split.
Qed.

End LoopFacts.

(** ** The last field of a row *)

Section LastField.

Variable measurementStr : u16string.
Variables fieldNames tagNames : list u16string.
Variable data : list Array.
Variable iRow : nat.

(** The states of a row whose last field is skipped: after the tag loop,
    before the last field, and after it. *)
Lemma last_field_skipped (names : list u16string) (name : u16string)
  (tvals : list u16string) (vals : list Value) (v : Value) :
  fieldNames = names ++ [name] ->
  length vals = length names ->
  row_view tagNames fieldNames data iRow tvals (vals ++ [v]) ->
  render v = None ->
  let head := line_head measurementStr (pairs tagNames tvals) ++ U " " in
  let kept := field_pairs names vals in
  let st_tags := mkRowState head true 0 (length tagNames) in
  let st_pre :=
    mkRowState (head ++ concat (map (fun p => p ++ U ",") kept))
      true (length names - length kept) (length tagNames + length names) in
  tag_loop tagNames data iRow tagNames 0 (row_start measurementStr tagNames)
  = Ok st_tags /\
  field_loop fieldNames data iRow names 0 st_tags = Ok st_pre /\
  field_body fieldNames data iRow (length names) name st_pre =
  row_columns measurementStr fieldNames tagNames data iRow /\
  row_columns measurementStr fieldNames tagNames data iRow =
  Ok (mkRowState (close_fields head kept)
        (match kept with [] => false | _ :: _ => true end)
        (length fieldNames - length kept)
        (length tagNames + length fieldNames)).
Proof.
  intros Hnames Hlenv Hview Hv head kept st_tags st_pre.
  assert (Hne : fieldNames <> []).
  { rewrite Hnames. destruct names; discriminate. }
  assert (Hnf : length fieldNames = S (length names)).
  { rewrite Hnames, length_app. simpl. lia. }
  assert (Hkept : field_pairs fieldNames (vals ++ [v]) = kept).
  { rewrite Hnames, field_pairs_app by (now symmetry).
    simpl. rewrite Hv. apply app_nil_r. }
  pose proof (row_columns_view measurementStr Hne Hview) as Hrow.
  rewrite Hkept in Hrow. fold head in Hrow.
  destruct Hview as [time tags fields rest Hdata Htn Hfn Htv Hfv].
  assert (Htags : tag_loop tagNames data iRow tagNames 0
                    (row_start measurementStr tagNames) = Ok st_tags).
  { apply tag_loop_row with (cols := tags) (post := fields ++ rest)
                            (time := time); assumption. }
  rewrite Hnf in Hfn.
  assert (Hfn' : length fields = length (names ++ [name])).
  { rewrite length_app. simpl. lia. }
  destruct (split_last _ _ _ Hfn') as [cols [col [-> Hlenc]]].
  apply map_snoc_inv in Hfv. destruct Hfv as [Hfv Hcv].
  destruct (@field_loop_inner fieldNames data iRow names cols vals
              (time :: tags) ([col] ++ rest) 0 st_tags) as [n [Hn Hloop]];
    try assumption; try (simpl; lia).
  { rewrite Hdata, <- app_assoc. reflexivity. }
  simpl in Hn. fold kept in Hn, Hloop.
  pose proof (field_pairs_length names vals) as Hle. fold kept in Hle.
  assert (Hpre : field_loop fieldNames data iRow names 0 st_tags = Ok st_pre).
  { rewrite Hloop. unfold st_pre. simpl. do 2 f_equal. lia. }
  split; [exact Htags|]. split; [exact Hpre|]. split; [|exact Hrow].
  unfold row_columns. rewrite Htags. cbn [bind].
  rewrite Hnames at 3. rewrite field_loop_app, Hpre. cbn [bind field_loop].
  change (0 + length names) with (length names).
  destruct (field_body fieldNames data iRow (length names) name st_pre);
    reflexivity.
Qed.

End LastField.

(** ** What every run of a row satisfies *)

Section RowInvariants.

Variable measurementStr : u16string.
Variables fieldNames tagNames : list u16string.
Variable data : list Array.
Variable iRow : nat.

Lemma index_throw (A : Type) (l : list A) (i : nat) (e : Failure) :
  index l i = Throw e -> e = InvalidArrayIndex.
Proof.
  unfold index. destruct (nth_error l i); [discriminate|].
  intros H. now injection H.
Qed.

(** A field column that has no value at the row fails the switch with an
    exception of the Data API. *)
Lemma field_switch_throw (col : Array) (temp : u16string) (st : RowState) :
  field_value iRow col = None ->
  exists e : Failure,
    field_switch fieldNames iRow col temp st = Throw e /\
    e <> PopBackOnEmpty.
Proof.
  intros Hv.
  destruct col as [t elems|t elems|elems|elems|chars|t]; simpl in Hv.
  - destruct (nth_error elems iRow) as [z|] eqn:E;
      [destruct (signed t); discriminate|].
    exists InvalidArrayIndex. split; [|discriminate].
    destruct t; unfold field_switch, integer_entry, index; simpl;
      rewrite E; reflexivity.
  - destruct (nth_error elems iRow) as [x|] eqn:E; [discriminate|].
    exists InvalidArrayIndex. split; [|discriminate].
    destruct t; unfold field_switch, double_entry, index; simpl;
      rewrite E; reflexivity.
  - destruct (nth_error elems iRow) as [s|] eqn:E; [discriminate|].
    exists InvalidArrayIndex. split; [|discriminate].
    unfold field_switch, string_entry, index; simpl; rewrite E; reflexivity.
  - unfold field_switch, cell_entry, index; simpl.
    destruct (nth_error elems iRow) as [c|] eqn:E.
    + exists TypeMismatch. split; [|discriminate].
      destruct c; try discriminate; reflexivity.
    + exists InvalidArrayIndex. split; [|discriminate]. reflexivity.
  - discriminate.
  - exists TypeMismatch. split; [|discriminate].
    destruct t; simpl in Hv; try discriminate; reflexivity.
Qed.

Lemma tag_switch_throw (col : Array) (it : nat) (name : u16string)
  (st : RowState) :
  index data (S (colIndx st)) = Ok col ->
  tag_value iRow col = None ->
  exists e : Failure,
    tag_body tagNames data iRow it name st = Throw e /\
    e <> PopBackOnEmpty.
Proof.
  intros Hcol Hv.
  unfold tag_body; simpl. rewrite Hcol; cbn [bind].
  destruct col as [t elems|t elems|elems|elems|chars|t]; simpl in Hv;
    try discriminate.
  - exists InvalidArrayIndex. split; [|discriminate].
    unfold string_entry, index; simpl. rewrite Hv. reflexivity.
  - unfold cell_entry, index; simpl.
    destruct (nth_error elems iRow) as [c|] eqn:E.
    + exists TypeMismatch. split; [|discriminate].
      destruct c; try discriminate; reflexivity.
    + exists InvalidArrayIndex. split; [|discriminate]. reflexivity.
  - exists TypeMismatch. split; [|discriminate].
    destruct t; simpl in Hv; try discriminate; reflexivity.
Qed.

(** One iteration of the tag loop appends a pair and a separator, or
    fails with an exception of the Data API. *)
Lemma tag_body_cases (it : nat) (name : u16string) (st : RowState) :
  match tag_body tagNames data iRow it name st with
  | Ok st' =>
      exists v : u16string,
        st' = mkRowState (rowStr st ++ pair_text name v ++ tag_sep tagNames it)
                (addRow st) (nanNum st) (S (colIndx st))
  | Throw e => e <> PopBackOnEmpty
  end.
Proof.
  destruct (index data (S (colIndx st))) as [col|e] eqn:Hcol.
  - destruct (tag_value iRow col) as [v|] eqn:Hv.
    + rewrite tag_body_value with (col := col) (v := v) by assumption.
      exists v. reflexivity.
    + destruct (@tag_switch_throw col it name st Hcol Hv) as [e [-> He]].
      exact He.
  - unfold tag_body; simpl. rewrite Hcol; cbn [bind].
    apply index_throw in Hcol. rewrite Hcol. discriminate.
Qed.

(** One iteration of the field loop: the field is kept, or skipped before
    the last field, or skipped as the last field. *)
Lemma field_body_cases (it : nat) (name : u16string) (st : RowState) :
  match field_body fieldNames data iRow it name st with
  | Ok st' =>
      (exists s : u16string,
         st' = mkRowState
                 (rowStr st ++ pair_text name s ++ field_sep fieldNames it)
                 (addRow st) (nanNum st) (S (colIndx st))) \/
      (it <> lastMinusOne fieldNames /\
       st' = missing fieldNames (next_col st)) \/
      (it = lastMinusOne fieldNames /\ rowStr st <> [] /\
       st' = mkRowState (removelast (rowStr st) ++ U " ")
               (addRow (missing fieldNames st)) (nanNum st + 1)
               (S (colIndx st)))
  | Throw e => e = PopBackOnEmpty -> rowStr st = []
  end.
Proof.
  destruct (index data (S (colIndx st))) as [col|e] eqn:Hcol.
  - destruct (field_value iRow col) as [v|] eqn:Hv.
    + rewrite field_body_value with (col := col) (v := v) by assumption.
      destruct (render v) as [s|].
      * left. exists s. reflexivity.
      * cbv zeta. destruct (Nat.eqb_spec it (lastMinusOne fieldNames)).
        -- destruct (rowStr st) as [|c s] eqn:Hs.
           ++ cbn [pop_back bind]. intros _. reflexivity.
           ++ right; right.
              split; [assumption|]. split; [discriminate|reflexivity].
        -- right; left. split; [assumption|reflexivity].
    + destruct (@field_switch_throw col (name ++ U "=") (next_col st) Hv)
        as [e [Hsw He]].
      unfold field_body; cbv zeta; cbn [next_col colIndx].
      rewrite Hcol; cbn [bind].
      rewrite Hsw. cbn [bind]. intros ->. congruence.
  - unfold field_body; simpl. rewrite Hcol; cbn [bind].
    apply index_throw in Hcol. rewrite Hcol. discriminate.
Qed.

(** The row buffer never becomes empty, so [pop_back] is never undefined. *)
Lemma tag_loop_nonempty (names : list u16string) :
  forall (it : nat) (st : RowState),
  rowStr st <> [] ->
  match tag_loop tagNames data iRow names it st with
  | Ok st' => rowStr st' <> []
  | Throw e => e <> PopBackOnEmpty
  end.
Proof.
  induction names as [|name rest IH]; intros it st Hst; simpl.
  - exact Hst.
  - pose proof (tag_body_cases it name st) as Hb.
    destruct (tag_body tagNames data iRow it name st) as [st1|e];
      cbn [bind]; [|exact Hb].
    apply IH. destruct Hb as [v ->]. simpl.
    destruct (rowStr st); [congruence|discriminate].
Qed.

Lemma field_loop_nonempty (names : list u16string) :
  forall (it : nat) (st : RowState),
  rowStr st <> [] ->
  match field_loop fieldNames data iRow names it st with
  | Ok st' => rowStr st' <> []
  | Throw e => e <> PopBackOnEmpty
  end.
Proof.
  induction names as [|name rest IH]; intros it st Hst; simpl.
  - exact Hst.
  - pose proof (field_body_cases it name st) as Hb.
    destruct (field_body fieldNames data iRow it name st) as [st1|e];
      cbn [bind].
    + apply IH.
      destruct Hb as [[s ->]|[[_ ->]|[_ [_ ->]]]]; simpl.
      * destruct (rowStr st); [congruence|discriminate].
      * exact Hst.
      * destruct (removelast (rowStr st)); discriminate.
    + intros ->. apply Hst, Hb. reflexivity.
Qed.

Lemma row_start_text :
  rowStr (row_start measurementStr tagNames) =
  measurementStr ++ (if isTagNamesEmpty tagNames then U " " else U ",").
Proof.
  unfold row_start. destruct (isTagNamesEmpty tagNames); reflexivity.
Qed.

Lemma row_columns_nonempty :
  match row_columns measurementStr fieldNames tagNames data iRow with
  | Ok st => rowStr st <> []
  | Throw e => e <> PopBackOnEmpty
  end.
Proof.
  unfold row_columns.
  assert (H0 : rowStr (row_start measurementStr tagNames) <> []).
  { rewrite row_start_text.
    destruct measurementStr; destruct (isTagNamesEmpty tagNames);
      discriminate. }
  pose proof (tag_loop_nonempty tagNames 0 _ H0) as Ht.
  destruct (tag_loop tagNames data iRow tagNames 0
              (row_start measurementStr tagNames)) as [st|e];
    cbn [bind]; [|exact Ht].
  exact (field_loop_nonempty fieldNames 0 _ Ht).
Qed.

(** The tag loop only appends, and leaves the counters alone. *)
Lemma tag_loop_extends (names : list u16string) :
  forall (it : nat) (st st' : RowState),
  tag_loop tagNames data iRow names it st = Ok st' ->
  exists ext : u16string,
    rowStr st' = rowStr st ++ ext /\
    (names <> [] -> ext <> []) /\
    addRow st' = addRow st /\ nanNum st' = nanNum st.
Proof.
  induction names as [|name rest IH]; intros it st st' Hloop;
    simpl in Hloop.
  - injection Hloop as <-. exists []. rewrite app_nil_r.
    repeat split; congruence.
  - pose proof (tag_body_cases it name st) as Hb.
    destruct (tag_body tagNames data iRow it name st) as [st1|e];
      [|discriminate].
    cbn [bind] in Hloop. destruct Hb as [v ->].
    destruct (IH _ _ _ Hloop) as [ext [Hext [_ [Ha Hn]]]].
    simpl in Hext, Ha, Hn.
    exists (pair_text name v ++ tag_sep tagNames it ++ ext).
    split; [rewrite Hext; now repeat rewrite <- app_assoc|].
    split; [|split; assumption].
    intros _ Hnil. apply app_eq_nil in Hnil. destruct Hnil as [_ Hnil].
    apply app_eq_nil in Hnil. destruct Hnil as [Hnil _].
    unfold tag_sep in Hnil.
    destruct (it =? lastTag tagNames); discriminate.
Qed.

Lemma field_body_prefix (it : nat) (name : u16string) (st st' : RowState) :
  it < length fieldNames ->
  prefix_kept measurementStr tagNames it st ->
  field_body fieldNames data iRow it name st = Ok st' ->
  prefix_kept measurementStr tagNames (S it) st'.
Proof.
  intros Hit [Hle Hpre] Hbody.
  pose proof (field_body_cases it name st) as Hb. rewrite Hbody in Hb.
  destruct Hb as [[s ->]|[[Hnl ->]|[Hl [Hne ->]]]]; unfold prefix_kept;
    cbn [rowStr addRow nanNum missing next_col].
  - split; [lia|]. intros Ha. destruct (Hpre Ha) as [body [Hb _]].
    exists (body ++ pair_text name s ++ field_sep fieldNames it).
    split; [rewrite Hb; now rewrite <- app_assoc|].
    intros Hnil. apply app_eq_nil in Hnil. destruct Hnil as [_ Hnil].
    apply app_eq_nil in Hnil. destruct Hnil as [_ Hnil].
    unfold field_sep in Hnil.
    destruct (it =? lastMinusOne fieldNames); discriminate.
  - split; [lia|]. intros Ha.
    destruct (length fieldNames =? nanNum st + 1); [discriminate|].
    destruct (Hpre Ha) as [body [Hb Hn]].
    exists body. split; [exact Hb|]. intros Hnil. specialize (Hn Hnil). lia.
  - split; [lia|]. intros Ha.
    destruct (Nat.eqb_spec (length fieldNames) (nanNum st + 1)) as [|Hd];
      [discriminate|].
    destruct (Hpre Ha) as [body [Hb Hn]].
    assert (Hbody' : body <> []).
    { intros Hnil. specialize (Hn Hnil). unfold lastMinusOne in Hl. lia. }
    exists (removelast body ++ U " ").
    split.
    + rewrite Hb, removelast_app by assumption. now rewrite <- app_assoc.
    + intros Hnil. apply app_eq_nil in Hnil. destruct Hnil; discriminate.
Qed.

Lemma field_loop_prefix (names : list u16string) :
  forall (it : nat) (st st' : RowState),
  it + length names <= length fieldNames ->
  prefix_kept measurementStr tagNames it st ->
  field_loop fieldNames data iRow names it st = Ok st' ->
  prefix_kept measurementStr tagNames (it + length names) st'.
Proof.
  induction names as [|name rest IH]; intros it st st' Hit Hst Hloop;
    simpl in Hloop, Hit.
  - injection Hloop as <-. simpl. now rewrite Nat.add_0_r.
  - destruct (field_body fieldNames data iRow it name st) as [st1|e] eqn:Hb;
      [|discriminate].
    cbn [bind] in Hloop.
    assert (H1 : prefix_kept measurementStr tagNames (S it) st1).
    { apply field_body_prefix with (name := name) (st := st);
        [lia|assumption|assumption]. }
    simpl. rewrite Nat.add_succ_r.
    apply (IH (S it) st1 st'); [simpl; lia|assumption|assumption].
Qed.

(** In a row that is added, the buffer starts with the measurement and the
    separator after it. *)
Lemma row_columns_prefix (st : RowState) :
  row_columns measurementStr fieldNames tagNames data iRow = Ok st ->
  addRow st = true ->
  exists body : u16string,
    rowStr st = row_prefix measurementStr tagNames ++ body.
Proof.
  unfold row_columns. intros Hrow Ha.
  destruct (tag_loop tagNames data iRow tagNames 0
              (row_start measurementStr tagNames)) as [st1|e] eqn:Ht;
    [|discriminate].
  cbn [bind] in Hrow.
  destruct (tag_loop_extends _ _ _ Ht) as [ext [Hext [Hne [Ha1 Hn1]]]].
  rewrite row_start_text in Hext.
  fold (row_prefix measurementStr tagNames) in Hext.
  assert (H1 : prefix_kept measurementStr tagNames 0 st1).
  { split.
    - rewrite Hn1. unfold row_start.
      destruct (isTagNamesEmpty tagNames); simpl; lia.
    - intros _. exists ext. split; [exact Hext|].
      intros Hnil. rewrite Hn1. unfold row_start.
      destruct (isTagNamesEmpty tagNames); reflexivity. }
  destruct (@field_loop_prefix fieldNames 0 st1 st (le_n _) H1 Hrow)
    as [_ Hfinal].
  destruct (Hfinal Ha) as [body [Hb _]].
  exists body. exact Hb.
Qed.


(** The column read at an offset that is the length of a prefix of the
    table is the first column after the prefix. *)
Lemma index_after_prefix (pre rest : list Array) (col : Array) :
  index (pre ++ rest) (length pre) = Ok col ->
  exists rest' : list Array, rest = col :: rest'.
Proof.
  unfold index. rewrite nth_error_app2, Nat.sub_diag by lia.
  destruct rest as [|c rest']; simpl; [discriminate|].
  intros H. injection H as ->. now exists rest'.
Qed.

(** A tag loop that ends has read a text from each of its columns. *)
Lemma tag_loop_reads (names : list u16string) :
  forall (it : nat) (st st' : RowState) (pre rest : list Array),
  data = pre ++ rest ->
  length pre = S (colIndx st) ->
  tag_loop tagNames data iRow names it st = Ok st' ->
  exists (cols : list Array) (vals : list u16string) (post : list Array),
    rest = cols ++ post /\
    length cols = length names /\
    map (tag_value iRow) cols = map Some vals /\
    colIndx st' = colIndx st + length names.
Proof.
  induction names as [|name names IH]; intros it st st' pre rest
    Hdata Hpre Hloop; simpl in Hloop.
  - injection Hloop as <-. exists [], [], rest.
    repeat split. simpl. lia.
  - destruct (index data (S (colIndx st))) as [col|e] eqn:Hcol.
    + pose proof Hcol as Hcol'.
      rewrite Hdata, <- Hpre in Hcol'.
      apply index_after_prefix in Hcol'. destruct Hcol' as [rest' ->].
      destruct (tag_value iRow col) as [v|] eqn:Hv.
      * rewrite tag_body_value with (col := col) (v := v) in Hloop
          by assumption.
        cbn [bind] in Hloop.
        assert (Hd : data = (pre ++ [col]) ++ rest')
          by (rewrite Hdata, <- app_assoc; reflexivity).
        match type of Hloop with
        | tag_loop _ _ _ _ _ ?s = _ =>
            assert (Hl : length (pre ++ [col]) = S (colIndx s))
              by (rewrite length_app; simpl; lia)
        end.
        destruct (IH _ _ _ _ _ Hd Hl Hloop)
          as [cols [vals [post [-> [Hlen [Hvals Hidx]]]]]].
        exists (col :: cols), (v :: vals), post.
        simpl. rewrite Hv, Hvals, Hlen, Hidx. simpl.
        repeat split. lia.
      * destruct (@tag_switch_throw col it name st Hcol Hv) as [e [He _]].
        rewrite He in Hloop. discriminate.
    + unfold tag_body in Hloop. cbv zeta in Hloop.
      cbn [next_col colIndx append] in Hloop.
      rewrite Hcol in Hloop. discriminate.
Qed.

(** A field loop that ends has read a value from each of its columns. *)
Lemma field_loop_reads (names : list u16string) :
  forall (it : nat) (st st' : RowState) (pre rest : list Array),
  data = pre ++ rest ->
  length pre = S (colIndx st) ->
  field_loop fieldNames data iRow names it st = Ok st' ->
  exists (cols : list Array) (vals : list Value) (post : list Array),
    rest = cols ++ post /\
    length cols = length names /\
    map (field_value iRow) cols = map Some vals.
Proof.
  induction names as [|name names IH]; intros it st st' pre rest
    Hdata Hpre Hloop; simpl in Hloop.
  - exists [], [], rest. repeat split.
  - destruct (field_body fieldNames data iRow it name st) as [st1|e] eqn:Hb;
      [|discriminate].
    cbn [bind] in Hloop.
    destruct (index data (S (colIndx st))) as [col|e] eqn:Hcol.
    + pose proof Hcol as Hcol'.
      rewrite Hdata, <- Hpre in Hcol'.
      apply index_after_prefix in Hcol'. destruct Hcol' as [rest' ->].
      destruct (field_value iRow col) as [v|] eqn:Hv.
      * assert (Hidx : colIndx st1 = S (colIndx st)).
        { pose proof (field_body_cases it name st) as Hc.
          rewrite Hb in Hc.
          destruct Hc as [[s ->]|[[_ ->]|[_ [_ ->]]]]; reflexivity. }
        assert (Hd : data = (pre ++ [col]) ++ rest')
          by (rewrite Hdata, <- app_assoc; reflexivity).
        assert (Hl : length (pre ++ [col]) = S (colIndx st1))
          by (rewrite length_app, Hidx; simpl; lia).
        destruct (IH _ _ _ _ _ Hd Hl Hloop)
          as [cols [vals [post [-> [Hlen Hvals]]]]].
        exists (col :: cols), (v :: vals), post.
        simpl. rewrite Hv, Hvals, Hlen. repeat split.
      * destruct (@field_switch_throw col (name ++ U "=") (next_col st) Hv)
          as [e [He _]].
        unfold field_body in Hb. cbv zeta in Hb.
        cbn [next_col colIndx] in Hb.
        rewrite Hcol in Hb. cbn [bind] in Hb. rewrite He in Hb.
        discriminate.
    + unfold field_body in Hb. cbv zeta in Hb.
      cbn [next_col colIndx] in Hb.
      rewrite Hcol in Hb. discriminate.
Qed.

(** The row view is no restriction: whenever the two loops of a row end,
    the table, behind its first column, has the view of the row. *)
Lemma row_columns_has_view (time : Array) (rest : list Array)
  (st : RowState) :
  data = time :: rest ->
  row_columns measurementStr fieldNames tagNames data iRow = Ok st ->
  exists (tvals : list u16string) (fvals : list Value),
    row_view tagNames fieldNames data iRow tvals fvals.
Proof.
  intros Hdata Hrow. unfold row_columns in Hrow.
  destruct (tag_loop tagNames data iRow tagNames 0
              (row_start measurementStr tagNames)) as [st1|e] eqn:Ht;
    [|discriminate].
  cbn [bind] in Hrow.
  assert (H0 : colIndx (row_start measurementStr tagNames) = 0).
  { unfold row_start. destruct (isTagNamesEmpty tagNames); reflexivity. }
  assert (H1 : length [time] = S (colIndx (row_start measurementStr tagNames)))
    by (rewrite H0; reflexivity).
  destruct (@tag_loop_reads tagNames 0 _ st1 [time] rest Hdata H1 Ht)
    as [tags [tvals [post [-> [Htn [Htv Hidx]]]]]].
  rewrite H0 in Hidx. simpl in Hidx.
  assert (H2 : length (time :: tags) = S (colIndx st1))
    by (simpl; rewrite Htn, Hidx; reflexivity).
  destruct (@field_loop_reads fieldNames 0 st1 st (time :: tags) post
              Hdata H2 Hrow)
    as [fields [fvals [rest' [-> [Hfn Hfv]]]]].
  exists tvals, fvals.
  apply RowView with (time := time) (tags := tags) (fields := fields)
                     (rest := rest'); assumption.
Qed.

End RowInvariants.

(** ** Values that are kept and values that are skipped *)

Lemma render_representable (v : Value) :
  representable v = true -> exists s : u16string, render v = Some s.
Proof.
  destruct v; simpl; intros H; try discriminate; eauto.
  rewrite H. eauto.
Qed.

Lemma render_skipped (v : Value) :
  skipped v = true -> render v = None.
Proof.
  unfold skipped. destruct v; simpl; try discriminate; try reflexivity.
  destruct (is_finite x); [discriminate|reflexivity].
Qed.

Lemma field_pairs_all (names : list u16string) :
  forall vals : list Value,
  forallb representable vals = true ->
  exists texts : list u16string,
    map render vals = map Some texts /\
    field_pairs names vals = pairs names texts.
Proof.
  induction names as [|name names IH]; intros vals Hall.
  - induction vals as [|v vals IHv].
    + exists []. split; reflexivity.
    + simpl in Hall. apply andb_prop in Hall. destruct Hall as [Hv Hall].
      destruct (IHv Hall) as [texts [Ht _]].
      destruct (render_representable _ Hv) as [s Hs].
      exists (s :: texts). simpl. rewrite Hs, Ht. split; reflexivity.
  - destruct vals as [|v vals].
    + exists []. split; reflexivity.
    + simpl in Hall. apply andb_prop in Hall. destruct Hall as [Hv Hall].
      destruct (IH vals Hall) as [texts [Ht Hp]].
      destruct (render_representable _ Hv) as [s Hs].
      exists (s :: texts). simpl. rewrite Hs, Ht, Hp. split; reflexivity.
Qed.

Lemma field_pairs_none (names : list u16string) :
  forall vals : list Value,
  forallb skipped vals = true -> field_pairs names vals = [].
Proof.
  induction names as [|name names IH]; intros [|v vals] Hall;
    try reflexivity.
  simpl in Hall. apply andb_prop in Hall. destruct Hall as [Hv Hall].
  simpl. rewrite (render_skipped _ Hv). apply IH. exact Hall.
Qed.

Lemma row_view_lengths (tagNames fieldNames : list u16string)
  (data : list Array) (iRow : nat) (tvals : list u16string)
  (fvals : list Value) :
  row_view tagNames fieldNames data iRow tvals fvals ->
  length tvals = length tagNames /\ length fvals = length fieldNames.
Proof.
  intros [time tags fields rest _ Htn Hfn Htv Hfv].
  rewrite <- Htn, <- Hfn.
  split; symmetry; eapply length_map_eq; eassumption.
Qed.

(** Every row of the range of a call that returns has a view. *)
Lemma convert_rows_have_views (measurementStr : u16string)
  (fieldNames tagNames : list u16string) (data : list Array)
  (startRow endRow iRow : nat) (res : u16string) :
  startRow <= iRow < endRow ->
  convert2lineprotocol measurementStr fieldNames tagNames data
    startRow endRow = Ok res ->
  exists (tvals : list u16string) (fvals : list Value),
    row_view tagNames fieldNames data iRow tvals fvals.
Proof.
  intros Hin Hres.
  destruct (@convert_around measurementStr fieldNames tagNames data
              startRow endRow iRow res Hin Hres)
    as [time [_ [out [_ [Htime [_ [Hout _]]]]]]].
  destruct data as [|d0 rest]; [discriminate|].
  unfold row_body in Hout.
  destruct (row_columns measurementStr fieldNames tagNames (d0 :: rest) iRow)
    as [st|e] eqn:Hrow; [|discriminate].
  exact (@row_columns_has_view measurementStr fieldNames tagNames
           (d0 :: rest) iRow d0 rest st eq_refl Hrow).
Qed.

(** * The claims *)

(** C1: in a table with at least one field column, for a row of the range
    in which every field column has a supported type and every
    floating-point value is finite, the output holds exactly
    one line for the row, between the output of the rows before it and the
    output of the rows after it: the measurement, one pair per tag joined by
    commas (a comma after the measurement when there are tags), a space, one
    pair per field in column order with the value formatted by its type, a
    space, the timestamp and a newline. *)
Theorem C1_complete_row_line (measurementStr : u16string)
  (fieldNames tagNames : list u16string) (data : list Array)
  (startRow endRow iRow : nat) (tvals : list u16string)
  (fvals : list Value) (time : list Z) (t : Z) (res : u16string) :
  fieldNames <> [] ->
  startRow <= iRow < endRow ->
  row_view tagNames fieldNames data iRow tvals fvals ->
  forallb representable fvals = true ->
  nth_error data 0 = Some (IntegerArray Int64 time) ->
  nth_error time iRow = Some t ->
  convert2lineprotocol measurementStr fieldNames tagNames data
    startRow endRow = Ok res ->
  exists (ftexts : list u16string) (before after : u16string),
    map render fvals = map Some ftexts /\
    length (pairs tagNames tvals) = length tagNames /\
    length (pairs fieldNames ftexts) = length fieldNames /\
    convert2lineprotocol measurementStr fieldNames tagNames data
      startRow iRow = Ok before /\
    convert2lineprotocol measurementStr fieldNames tagNames data
      (S iRow) endRow = Ok after /\
    res = before ++
          line measurementStr (pairs tagNames tvals)
            (pairs fieldNames ftexts) t ++
          after.
Proof.
  intros Hne Hin Hview Hall Htime Ht Hres.
  destruct (row_view_lengths Hview) as [Hlt Hlf].
  destruct (field_pairs_all fieldNames fvals Hall) as [ftexts [Hft Hfp]].
  assert (Hlft : length ftexts = length fieldNames).
  { rewrite <- Hlf. symmetry. eapply length_map_eq. exact Hft. }
  destruct (@convert_around measurementStr fieldNames tagNames data
              startRow endRow iRow res Hin Hres)
    as [time' [before [out [after [Htime' [Hb [Hout [Ha ->]]]]]]]].
  rewrite Htime in Htime'. injection Htime' as <-.
  rewrite (@row_body_view measurementStr fieldNames tagNames data iRow
             tvals fvals time [] Hne Hview) in Hout.
  rewrite Hfp in Hout.
  assert (Hpl : length (pairs fieldNames ftexts) = length fieldNames)
    by (apply pairs_length; exact Hlft).
  destruct (pairs fieldNames ftexts) as [|p l] eqn:E.
  { destruct fieldNames; [congruence|discriminate]. }
  rewrite (index_nth _ _ Ht) in Hout. cbn [bind] in Hout.
  injection Hout as <-.
  exists ftexts, before, after. rewrite E.
  repeat split; try assumption.
  apply pairs_length. exact Hlt.
Qed.

Lemma C1_complete_row_line_witness :
  exists (ftexts : list u16string) (before after : u16string),
    map render [Signed (-5); Float 3.5] = map Some ftexts /\
    length (pairs [U "host"] [U "a"]) = 1 /\
    length (pairs [U "n"; U "x"] ftexts) = 2 /\
    convert2lineprotocol (U "cpu") [U "n"; U "x"] [U "host"] demo_data 0 0
    = Ok before /\
    convert2lineprotocol (U "cpu") [U "n"; U "x"] [U "host"] demo_data 1 3
    = Ok after /\
    U "cpu,host=a n=-5i,x=3.500000 1700000000" ++ newline ++
    U "cpu,host=b n=6i 1700000001" ++ newline ++
    U "cpu,host=c n=7i 1700000002" ++ newline
    = before ++
      line (U "cpu") (pairs [U "host"] [U "a"]) (pairs [U "n"; U "x"] ftexts)
        1700000000 ++
      after.
Proof.
  apply (@C1_complete_row_line (U "cpu") [U "n"; U "x"] [U "host"] demo_data
           0 3 0 [U "a"] [Signed (-5); Float 3.5]
           [1700000000; 1700000001; 1700000002]%Z 1700000000%Z).
  - discriminate.
  - lia.
  - apply RowView
      with (time := IntegerArray Int64 [1700000000; 1700000001; 1700000002]%Z)
           (tags := [StringArray [U "a"; U "b"; U "c"]])
           (fields := [IntegerArray Int32 [(-5)%Z; 6%Z; 7%Z];
                       FloatArray Double [3.5; nan; nan]%float])
           (rest := [OtherArray LOGICAL]); reflexivity.
  - reflexivity.
  - reflexivity.
  - reflexivity.
  - vm_compute. reflexivity.
Defined.

(** C2, as the code has it: a signed 32-bit field of value -5 is written
    [field=-5i], an unsigned field of value 7 [field=7u], a text field
    holding [ok], in either representation, [field="ok"], and a double field
    of value 3.5 [field=3.500000]: fixed-point notation with six digits
    after the decimal point, no suffix and no quotes. *)
Theorem C2_value_formats (fieldNames : list u16string) :
  field_text fieldNames (IntegerArray Int32 [(-5)%Z]) 0 (U "field")
  = Ok (Some (U "field=-5i")) /\
  Forall (fun t =>
            field_text fieldNames (IntegerArray t [7%Z]) 0 (U "field")
            = Ok (Some (U "field=7u")))
    [UInt8; UInt16; UInt32; UInt64] /\
  field_text fieldNames (StringArray [U "ok"]) 0 (U "field")
  = Ok (Some (U "field=" ++ quote ++ U "ok" ++ quote)) /\
  field_text fieldNames (CellArray [CharArray (U "ok")]) 0 (U "field")
  = Ok (Some (U "field=" ++ quote ++ U "ok" ++ quote)) /\
  field_text fieldNames (FloatArray Double [3.5%float]) 0 (U "field")
  = Ok (Some (U "field=3.500000")).
Proof.
  repeat split; try (vm_compute; reflexivity).
  repeat constructor.
Qed.

(** C2 as the specification words it fails on the double: the field is not
    written [field=3.5]. *)
Lemma C2_value_formats_counterexample :
  ~ (field_text [U "field"] (IntegerArray Int32 [(-5)%Z]) 0 (U "field")
     = Ok (Some (U "field=-5i")) /\
     field_text [U "field"] (IntegerArray UInt32 [7%Z]) 0 (U "field")
     = Ok (Some (U "field=7u")) /\
     field_text [U "field"] (StringArray [U "ok"]) 0 (U "field")
     = Ok (Some (U "field=" ++ quote ++ U "ok" ++ quote)) /\
     field_text [U "field"] (FloatArray Double [3.5%float]) 0 (U "field")
     = Ok (Some (U "field=3.5"))).
Proof.
  intros [_ [_ [_ H]]]. vm_compute in H. discriminate H.
Qed.

(** C3: in a table with at least one field column, a row of the range in
    which every field is skipped leaves the output as it was, tag prefix
    included: the output is that of the rows
    before it followed by that of the rows after it, and it holds fewer
    lines than the range has rows. *)
Theorem C3_row_without_fields_dropped (measurementStr : u16string)
  (fieldNames tagNames : list u16string) (data : list Array)
  (startRow endRow iRow : nat) (tvals : list u16string)
  (fvals : list Value) (res : u16string) :
  fieldNames <> [] ->
  startRow <= iRow < endRow ->
  row_view tagNames fieldNames data iRow tvals fvals ->
  forallb skipped fvals = true ->
  convert2lineprotocol measurementStr fieldNames tagNames data
    startRow endRow = Ok res ->
  (forall (timeDataArray : list Z) (acc : u16string),
     row_body measurementStr fieldNames tagNames data iRow timeDataArray acc
     = Ok acc) /\
  exists (before after : u16string) (time : list Z) (rows : list nat)
         (lines : list u16string),
    convert2lineprotocol measurementStr fieldNames tagNames data
      startRow iRow = Ok before /\
    convert2lineprotocol measurementStr fieldNames tagNames data
      (S iRow) endRow = Ok after /\
    res = before ++ after /\
    Forall2 (row_line measurementStr fieldNames tagNames data time)
      rows lines /\
    ~ In iRow rows /\
    res = concat lines /\
    length lines < endRow - startRow.
Proof.
  intros Hne Hin Hview Hall Hres.
  assert (Hdrop : forall timeDataArray acc,
             row_body measurementStr fieldNames tagNames data iRow
               timeDataArray acc = Ok acc).
  { intros timeDataArray acc.
    rewrite (@row_body_view measurementStr fieldNames tagNames data iRow
               tvals fvals timeDataArray acc Hne Hview).
    now rewrite (field_pairs_none fieldNames fvals Hall). }
  split; [exact Hdrop|].
  destruct (@convert_around measurementStr fieldNames tagNames data
              startRow endRow iRow res Hin Hres)
    as [time [before [out [after [Htime [Hb [Hout [Ha ->]]]]]]]].
  rewrite Hdrop in Hout. injection Hout as <-.
  destruct (convert_unfold _ _ _ _ _ _ Hb) as [time1 [Ht1 Hl1]].
  destruct (convert_unfold _ _ _ _ _ _ Ha) as [time2 [Ht2 Hl2]].
  rewrite Htime in Ht1, Ht2. injection Ht1 as <-. injection Ht2 as <-.
  destruct (row_loop_lines _ _ _ _ _ _ _ Hl1)
    as [rows1 [lines1 [_ [Hin1 [Hf1 [Hc1 Hn1]]]]]].
  destruct (row_loop_lines _ _ _ _ _ _ _ Hl2)
    as [rows2 [lines2 [_ [Hin2 [Hf2 [Hc2 Hn2]]]]]].
  exists before, after, time, (rows1 ++ rows2), (lines1 ++ lines2).
  repeat split; try assumption.
  - apply Forall2_app; assumption.
  - intros Hi. apply in_app_or in Hi.
    destruct Hi as [Hi|Hi]; [apply Hin1 in Hi|apply Hin2 in Hi]; lia.
  - rewrite concat_app. simpl. congruence.
  - rewrite length_app.
    rewrite <- (Forall2_length Hf1), <- (Forall2_length Hf2). lia.
Qed.

Lemma C3_row_without_fields_dropped_witness :
  (forall (timeDataArray : list Z) (acc : u16string),
     row_body (U "cpu") [U "x"; U "b"] [U "host"] sparse_data 1
       timeDataArray acc = Ok acc) /\
  exists (before after : u16string) (time : list Z) (rows : list nat)
         (lines : list u16string),
    convert2lineprotocol (U "cpu") [U "x"; U "b"] [U "host"] sparse_data 0 1
    = Ok before /\
    convert2lineprotocol (U "cpu") [U "x"; U "b"] [U "host"] sparse_data 2 3
    = Ok after /\
    U "cpu,host=a x=3.500000 1700000000" ++ newline = before ++ after /\
    Forall2 (row_line (U "cpu") [U "x"; U "b"] [U "host"] sparse_data time)
      rows lines /\
    ~ In 1 rows /\
    U "cpu,host=a x=3.500000 1700000000" ++ newline = concat lines /\
    length lines < 3 - 0.
Proof.
  apply (@C3_row_without_fields_dropped (U "cpu") [U "x"; U "b"] [U "host"]
           sparse_data 0 3 1 [U "b"] [Float nan; Unsupported]).
  - discriminate.
  - lia.
  - apply RowView
      with (time := IntegerArray Int64 [1700000000; 1700000001; 1700000002]%Z)
           (tags := [StringArray [U "a"; U "b"; U "c"]])
           (fields := [FloatArray Double [3.5; nan; nan]%float;
                       OtherArray LOGICAL])
           (rest := []); reflexivity.
  - reflexivity.
  - vm_compute. reflexivity.
Defined.

(** One step of the field loop on a field that is skipped and is not the
    last one: the row buffer is left as it was, and the pair of a field
    that is kept right after it follows what the buffer held. *)
Lemma skipped_field_step (fieldNames : list u16string)
  (data : list Array) (iRow it : nat) (name1 : u16string) (col1 : Array)
  (v1 : Value) (st : RowState) :
  it <> lastMinusOne fieldNames ->
  nth_error data (S (colIndx st)) = Some col1 ->
  field_value iRow col1 = Some v1 ->
  skipped v1 = true ->
  exists st1 : RowState,
    field_body fieldNames data iRow it name1 st = Ok st1 /\
    rowStr st1 = rowStr st /\
    forall (name2 : u16string) (col2 : Array) (v2 : Value) (s2 : u16string),
      nth_error data (S (S (colIndx st))) = Some col2 ->
      field_value iRow col2 = Some v2 ->
      render v2 = Some s2 ->
      exists st2 : RowState,
        field_loop fieldNames data iRow [name1; name2] it st = Ok st2 /\
        rowStr st2 =
        rowStr st ++ pair_text name2 s2 ++
        (if S it =? lastMinusOne fieldNames then U " " else U ",").
Proof.
  intros Hit Hcol1 Hv1 Hs1.
  pose proof (@field_body_value fieldNames data iRow it name1 col1 v1 st
                (index_nth _ _ Hcol1) Hv1) as Hb1.
  rewrite (render_skipped _ Hs1) in Hb1. cbv zeta in Hb1.
  apply Nat.eqb_neq in Hit. rewrite Hit in Hb1.
  exists (missing fieldNames (next_col st)).
  split; [exact Hb1|]. split; [reflexivity|].
  intros name2 col2 v2 s2 Hcol2 Hv2 Hr2.
  pose proof (@field_body_value fieldNames data iRow (S it) name2 col2 v2
                (missing fieldNames (next_col st))
                (index_nth _ _ Hcol2) Hv2) as Hb2.
  rewrite Hr2 in Hb2.
  eexists. split.
  - simpl field_loop. rewrite Hb1. cbn [bind]. rewrite Hb2. reflexivity.
  - reflexivity.
Qed.

Lemma skipped_field_step_example :
  exists st1 st2 : RowState,
    field_body [U "x"; U "n"; U "b"] mixed_data 1 0 (U "x")
      (mkRowState (U "cpu,host=b ") true 0 1) = Ok st1 /\
    rowStr st1 = U "cpu,host=b " /\
    field_loop [U "x"; U "n"; U "b"] mixed_data 1 [U "x"; U "n"] 0
      (mkRowState (U "cpu,host=b ") true 0 1) = Ok st2 /\
    rowStr st2 = U "cpu,host=b n=6i,".
Proof.
  destruct (@skipped_field_step [U "x"; U "n"; U "b"]
              mixed_data 1 0 (U "x") (FloatArray Double [3.5; nan; nan]%float)
              (Float nan) (mkRowState (U "cpu,host=b ") true 0 1))
    as [st1 [H1 [H2 H3]]].
  - discriminate.
  - reflexivity.
  - reflexivity.
  - reflexivity.
  - destruct (H3 (U "n") (IntegerArray Int32 [(-5)%Z; 6%Z; 7%Z])
                (Signed 6) (U "6i")) as [st2 [H4 H5]].
    + reflexivity.
    + reflexivity.
    + reflexivity.
    + exists st1, st2. repeat split; assumption.
Defined.

(** C4, as the code has it: a field that is skipped and is not the last
    one writes nothing, neither a pair nor a separator, so the row buffer
    still ends in the separator it ended in, the comma after the last pair
    kept or the space before the fields; the pair of a field kept right
    after it follows that separator, and in the row buffer after the loops
    the pairs of the kept fields are joined by single commas: no two of
    them are concatenated. *)
Theorem C4_skipped_field_keeps_separators (measurementStr : u16string)
  (fieldNames tagNames : list u16string) (data : list Array) (iRow : nat)
  (pre : list u16string) (name1 name2 : u16string) (post : list u16string)
  (tvals : list u16string) (vpre : list Value) (v1 v2 : Value)
  (vpost : list Value) (s2 : u16string) :
  fieldNames = pre ++ name1 :: name2 :: post ->
  length vpre = length pre ->
  row_view tagNames fieldNames data iRow tvals (vpre ++ v1 :: v2 :: vpost) ->
  skipped v1 = true ->
  render v2 = Some s2 ->
  exists (st_pre st1 st_end : RowState) (buf : u16string) (c : ascii),
    (st <- tag_loop tagNames data iRow tagNames 0
             (row_start measurementStr tagNames) ;;
     field_loop fieldNames data iRow pre 0 st) = Ok st_pre /\
    rowStr st_pre = buf ++ [c] /\
    c = match field_pairs pre vpre with
        | [] => " "%char
        | _ :: _ => ","%char
        end /\
    field_body fieldNames data iRow (length pre) name1 st_pre = Ok st1 /\
    rowStr st1 = rowStr st_pre /\
    row_columns measurementStr fieldNames tagNames data iRow = Ok st_end /\
    addRow st_end = true /\
    rowStr st_end =
    line_head measurementStr (pairs tagNames tvals) ++ U " " ++
    join (U ",")
      (field_pairs pre vpre ++ pair_text name2 s2 :: field_pairs post vpost)
    ++ U " ".
Proof.
  intros Hnames Hlen Hview Hv1 Hv2.
  assert (Hne : fieldNames <> []).
  { rewrite Hnames. destruct pre; discriminate. }
  assert (Hnf : length fieldNames = length pre + S (S (length post))).
  { rewrite Hnames, length_app. reflexivity. }
  assert (Hkept : field_pairs fieldNames (vpre ++ v1 :: v2 :: vpost)
                  = field_pairs pre vpre ++
                    pair_text name2 s2 :: field_pairs post vpost).
  { rewrite Hnames, field_pairs_app by (now symmetry).
    simpl. now rewrite (render_skipped _ Hv1), Hv2. }
  pose proof (@row_columns_view measurementStr fieldNames tagNames data iRow
                tvals _ Hne Hview) as Hrow.
  rewrite Hkept in Hrow.
  set (head := line_head measurementStr (pairs tagNames tvals)) in *.
  set (kept := field_pairs pre vpre) in *.
  destruct Hview as [time tags fields rest Hdata Htn Hfn Htv Hfv].
  pose proof (@tag_loop_row measurementStr tagNames data iRow tvals tags
                (fields ++ rest) time Hdata Htn Htv) as Htags.
  fold head in Htags.
  rewrite map_app in Hfv. apply map_eq_app in Hfv.
  destruct Hfv as [cols [cols' [-> [Hcv Hcv']]]].
  simpl in Hcv'. apply map_eq_cons in Hcv'.
  destruct Hcv' as [col1 [cols2 [-> [Hc1 _]]]].
  assert (Hlc : length cols = length pre).
  { rewrite <- Hlen. exact (length_map_eq _ _ _ _ Hcv). }
  destruct (@field_loop_inner fieldNames data iRow pre cols vpre
              (time :: tags) ((col1 :: cols2) ++ rest) 0
              (mkRowState (head ++ U " ") true 0 (length tagNames)))
    as [n [Hn Hloop]]; try assumption; try (simpl; lia).
  { rewrite Hdata, <- app_assoc. reflexivity. }
  cbn [rowStr addRow nanNum colIndx] in Hn, Hloop. fold kept in Hn, Hloop.
  assert (Hcol : index data
                   (S (length tagNames + length pre)) = Ok col1).
  { rewrite Hdata.
    replace (time :: tags ++ (cols ++ col1 :: cols2) ++ rest)
      with ((time :: tags ++ cols) ++ col1 :: cols2 ++ rest)
      by (simpl; repeat rewrite <- app_assoc; reflexivity).
    replace (S (length tagNames + length pre))
      with (length (time :: tags ++ cols))
      by (simpl; rewrite length_app; lia).
    apply index_middle. }
  assert (Hbuf : exists (buf : u16string) (c : ascii),
             (head ++ U " ") ++ concat (map (fun p => p ++ U ",") kept)
             = buf ++ [c] /\
             c = match kept with [] => " "%char | _ :: _ => ","%char end).
  { destruct kept as [|p l] eqn:E.
    - exists head, " "%char. simpl. now rewrite app_nil_r.
    - exists ((head ++ U " ") ++ join (U ",") (p :: l)), ","%char.
      rewrite concat_sep_last by discriminate.
      split; [now rewrite app_assoc|reflexivity]. }
  destruct Hbuf as [buf [c [Hb Hc]]].
  eexists _, _, _, buf, c.
  split; [rewrite Htags; cbn [bind]; exact Hloop|].
  split; [exact Hb|]. split; [exact Hc|].
  split.
  { erewrite field_body_value; [|simpl; exact Hcol|exact Hc1].
    rewrite (render_skipped _ Hv1). cbv zeta.
    destruct (Nat.eqb_spec (length pre) (lastMinusOne fieldNames)) as [He|_];
      [unfold lastMinusOne in He; lia|].
    reflexivity. }
  split; [reflexivity|]. split; [exact Hrow|].
  cbn [addRow rowStr]. unfold close_fields.
  destruct (kept ++ pair_text name2 s2 :: field_pairs post vpost) as [|p l]
    eqn:E.
  { destruct kept; discriminate. }
  split; [reflexivity|]. now rewrite <- app_assoc.
Qed.

Lemma C4_skipped_field_keeps_separators_witness :
  exists (st_pre st1 st_end : RowState) (buf : u16string) (c : ascii),
    (st <- tag_loop [] gap_data 0 [] 0 (row_start (U "m") []) ;;
     field_loop [U "a"; U "b"; U "c"] gap_data 0 [U "a"] 0 st) = Ok st_pre /\
    rowStr st_pre = buf ++ [c] /\
    c = match field_pairs [U "a"] [Signed 1] with
        | [] => " "%char
        | _ :: _ => ","%char
        end /\
    field_body [U "a"; U "b"; U "c"] gap_data 0 1 (U "b") st_pre = Ok st1 /\
    rowStr st1 = rowStr st_pre /\
    row_columns (U "m") [U "a"; U "b"; U "c"] [] gap_data 0 = Ok st_end /\
    addRow st_end = true /\
    rowStr st_end =
    line_head (U "m") (pairs [] []) ++ U " " ++
    join (U ",")
      (field_pairs [U "a"] [Signed 1] ++
       pair_text (U "c") (U "3i") :: field_pairs [] [])
    ++ U " ".
Proof.
  apply (@C4_skipped_field_keeps_separators (U "m") [U "a"; U "b"; U "c"] []
           gap_data 0 [U "a"] (U "b") (U "c") [] [] [Signed 1]
           (Float nan) (Signed 3) [] (U "3i")).
  - reflexivity.
  - reflexivity.
  - apply RowView
      with (time := IntegerArray Int64 [0%Z])
           (tags := [])
           (fields := [IntegerArray Int32 [1%Z];
                       FloatArray Double [nan]%float;
                       IntegerArray Int32 [3%Z]])
           (rest := []); reflexivity.
  - reflexivity.
  - reflexivity.
Defined.

(** C4 as the specification words it: with a field that is skipped between
    two fields that are kept, the pair of the field after it would be
    concatenated to what precedes it with no separator between them.  The
    code writes [m a=1i,c=3i 0]: the line is not [m a=1ic=3i 0], and
    wherever the pair [c=3i] stands in it a comma stands before. *)
Lemma C4_skipped_field_keeps_separators_counterexample :
  ~ (convert2lineprotocol (U "m") [U "a"; U "b"; U "c"] [] gap_data 0 1
     = Ok (U "m " ++ pair_text (U "a") (U "1i") ++
           pair_text (U "c") (U "3i") ++ U " 0" ++ newline) \/
     exists (before : u16string) (ch : ascii) (after : u16string),
       convert2lineprotocol (U "m") [U "a"; U "b"; U "c"] [] gap_data 0 1
       = Ok (before ++ ch :: pair_text (U "c") (U "3i") ++ after) /\
       ch <> ","%char).
Proof.
  intros [H|[before [ch [after [H Hch]]]]].
  - vm_compute in H. discriminate H.
  - change (convert2lineprotocol (U "m") [U "a"; U "b"; U "c"] [] gap_data
              0 1)
      with (Ok (U "m a=1i,c=3i 0" ++ newline)) in H.
    injection H as H. apply Hch. clear Hch.
    cbv [U list_ascii_of_string pair_text newline app] in H.
    repeat (destruct before as [|? before];
            [ try discriminate H; injection H; intros; subst;
              try reflexivity; congruence
            | simpl in H; injection H as _ H ]).
    destruct before; discriminate H.
Qed.

(** C5: in every line of the output, the measurement is followed by a space
    when there is no tag column, and by a comma when there is one. *)
Theorem C5_separator_after_measurement (measurementStr : u16string)
  (fieldNames tagNames : list u16string) (data : list Array)
  (time : list Z) (iRow : nat) (l : u16string) :
  row_line measurementStr fieldNames tagNames data time iRow l ->
  exists rest : u16string,
    l = measurementStr ++
        match tagNames with
        | [] => U " "
        | _ :: _ => U ","
        end ++ rest.
Proof.
  intros [st [t [Hst [Ha [_ ->]]]]].
  destruct (@row_columns_prefix measurementStr fieldNames tagNames data
              iRow st Hst Ha) as [body Hbody].
  exists (body ++ to_wstring t ++ newline).
  rewrite Hbody. unfold row_prefix, isTagNamesEmpty.
  destruct tagNames; simpl; repeat rewrite <- app_assoc; reflexivity.
Qed.

Lemma C5_separator_after_measurement_witness :
  (exists rest : u16string,
     U "cpu x=3.500000 1700000000" ++ newline = U "cpu" ++ U " " ++ rest) /\
  (exists rest : u16string,
     U "cpu,host=a x=3.500000 1700000000" ++ newline
     = U "cpu" ++ U "," ++ rest).
Proof.
  split.
  - apply (@C5_separator_after_measurement (U "cpu") [U "x"] []
             [IntegerArray Int64 [1700000000%Z]; FloatArray Double [3.5%float]]
             [1700000000%Z] 0).
    exists (mkRowState (U "cpu x=3.500000 ") true 0 1), 1700000000%Z.
    repeat split; vm_compute; reflexivity.
  - apply (@C5_separator_after_measurement (U "cpu") [U "x"; U "b"]
             [U "host"] sparse_data
             [1700000000; 1700000001; 1700000002]%Z 0).
    exists (mkRowState (U "cpu,host=a x=3.500000 ") true 1 3), 1700000000%Z.
    repeat split; vm_compute; reflexivity.
Defined.

(** C6: when the last field of a row is skipped, the character that ends
    the row buffer is removed and a space is written in its place: the
    character is the comma written after the last field that was kept, or
    the space before the fields when no field was kept; the timestamp of a
    row that is added follows the space. *)
Theorem C6_last_field_skipped (measurementStr : u16string)
  (fieldNames tagNames : list u16string) (data : list Array) (iRow : nat)
  (names : list u16string) (name : u16string) (tvals : list u16string)
  (vals : list Value) (v : Value) :
  fieldNames = names ++ [name] ->
  length vals = length names ->
  row_view tagNames fieldNames data iRow tvals (vals ++ [v]) ->
  skipped v = true ->
  exists (st_pre st_end : RowState) (buf : u16string) (c : ascii),
    (st <- tag_loop tagNames data iRow tagNames 0
             (row_start measurementStr tagNames) ;;
     field_loop fieldNames data iRow names 0 st) = Ok st_pre /\
    rowStr st_pre = buf ++ [c] /\
    c = match field_pairs names vals with
        | [] => " "%char
        | _ :: _ => ","%char
        end /\
    field_body fieldNames data iRow (length names) name st_pre = Ok st_end /\
    row_columns measurementStr fieldNames tagNames data iRow = Ok st_end /\
    rowStr st_end = buf ++ U " " /\
    forall (time : list Z) (t : Z) (res : u16string),
      addRow st_end = true ->
      nth_error time iRow = Some t ->
      row_body measurementStr fieldNames tagNames data iRow time res
      = Ok (res ++ buf ++ U " " ++ to_wstring t ++ newline).
Proof.
  intros Hnames Hlen Hview Hv.
  destruct (@last_field_skipped measurementStr fieldNames tagNames data iRow
              names name tvals vals v Hnames Hlen Hview (render_skipped _ Hv))
    as [Htags [Hpre [Hbody Hrow]]].
  set (head := line_head measurementStr (pairs tagNames tvals)) in *.
  set (kept := field_pairs names vals) in *.
  assert (Hbuf : exists (buf : u16string) (c : ascii),
             (head ++ U " ") ++ concat (map (fun p => p ++ U ",") kept)
             = buf ++ [c] /\
             c = match kept with [] => " "%char | _ :: _ => ","%char end /\
             close_fields (head ++ U " ") kept = buf ++ U " ").
  { destruct kept as [|p l] eqn:E.
    - exists head, " "%char. simpl. rewrite app_nil_r.
      repeat split. change (U " ") with [" "%char].
      now rewrite removelast_last.
    - exists ((head ++ U " ") ++ join (U ",") (p :: l)), ","%char.
      rewrite concat_sep_last by discriminate.
      repeat split.
      + now rewrite app_assoc.
      + unfold close_fields. now rewrite app_assoc. }
  destruct Hbuf as [buf [c [Hb1 [Hc Hb2]]]].
  eexists _, _, buf, c.
  split; [rewrite Htags; cbn [bind]; exact Hpre|].
  split; [exact Hb1|]. split; [exact Hc|].
  split; [rewrite Hbody; exact Hrow|]. split; [exact Hrow|].
  split; [exact Hb2|].
  intros time t res Ha Ht.
  unfold row_body. rewrite Hrow. cbn [bind]. cbn [addRow] in Ha |- *.
  rewrite Ha. rewrite (index_nth _ _ Ht). cbn [bind rowStr].
  rewrite Hb2. now repeat rewrite <- app_assoc.
Qed.

Lemma C6_last_field_skipped_witness :
  exists (st_pre st_end : RowState) (buf : u16string) (c : ascii),
    (st <- tag_loop [U "host"] demo_data 1 [U "host"] 0
             (row_start (U "cpu") [U "host"]) ;;
     field_loop [U "n"; U "x"; U "b"] demo_data 1 [U "n"; U "x"] 0 st)
    = Ok st_pre /\
    rowStr st_pre = buf ++ [c] /\
    c = match field_pairs [U "n"; U "x"] [Signed 6; Float nan] with
        | [] => " "%char
        | _ :: _ => ","%char
        end /\
    field_body [U "n"; U "x"; U "b"] demo_data 1 2 (U "b") st_pre
    = Ok st_end /\
    row_columns (U "cpu") [U "n"; U "x"; U "b"] [U "host"] demo_data 1
    = Ok st_end /\
    rowStr st_end = buf ++ U " " /\
    forall (time : list Z) (t : Z) (res : u16string),
      addRow st_end = true ->
      nth_error time 1 = Some t ->
      row_body (U "cpu") [U "n"; U "x"; U "b"] [U "host"] demo_data 1
        time res
      = Ok (res ++ buf ++ U " " ++ to_wstring t ++ newline).
Proof.
  apply (@C6_last_field_skipped (U "cpu") [U "n"; U "x"; U "b"] [U "host"]
           demo_data 1 [U "n"; U "x"] (U "b") [U "b"]
           [Signed 6; Float nan] Unsupported).
  - reflexivity.
  - reflexivity.
  - apply RowView
      with (time := IntegerArray Int64 [1700000000; 1700000001; 1700000002]%Z)
           (tags := [StringArray [U "a"; U "b"; U "c"]])
           (fields := [IntegerArray Int32 [(-5)%Z; 6%Z; 7%Z];
                       FloatArray Double [3.5; nan; nan]%float;
                       OtherArray LOGICAL])
           (rest := []); reflexivity.
  - reflexivity.
Defined.

(** C7: the output is the concatenation of the lines of the rows of the
    range that are added, taken in strictly ascending order of the row
    index: no line is moved. *)
Theorem C7_lines_in_row_order (measurementStr : u16string)
  (fieldNames tagNames : list u16string) (data : list Array)
  (startRow endRow : nat) (res : u16string) :
  convert2lineprotocol measurementStr fieldNames tagNames data
    startRow endRow = Ok res ->
  exists (time : list Z) (rows : list nat) (lines : list u16string),
    nth_error data 0 = Some (IntegerArray Int64 time) /\
    StronglySorted lt rows /\
    (forall i : nat,
       In i rows <->
       startRow <= i < endRow /\
       row_added measurementStr fieldNames tagNames data i) /\
    Forall2 (row_line measurementStr fieldNames tagNames data time)
      rows lines /\
    res = concat lines.
Proof.
  intros Hres.
  destruct (convert_unfold _ _ _ _ _ _ Hres) as [time [Htime Hloop]].
  destruct (row_loop_lines _ _ _ _ _ _ _ Hloop)
    as [rows [lines [Hs [Hin [Hl [Hc _]]]]]].
  exists time, rows, lines.
  split; [exact Htime|]. split; [exact Hs|].
  split; [|split; assumption].
  intros i. rewrite Hin. split; intros [Hr Ha]; (split; [lia|exact Ha]).
Qed.

Lemma C7_lines_in_row_order_witness :
  exists (time : list Z) (rows : list nat) (lines : list u16string),
    nth_error sparse_data 0 = Some (IntegerArray Int64 time) /\
    StronglySorted lt rows /\
    (forall i : nat,
       In i rows <->
       0 <= i < 3 /\
       row_added (U "cpu") [U "x"; U "b"] [U "host"] sparse_data i) /\
    Forall2 (row_line (U "cpu") [U "x"; U "b"] [U "host"] sparse_data time)
      rows lines /\
    U "cpu,host=a x=3.500000 1700000000" ++ newline = concat lines.
Proof.
  apply (@C7_lines_in_row_order (U "cpu") [U "x"; U "b"] [U "host"]
           sparse_data 0 3).
  vm_compute. reflexivity.
Defined.

(** C8: a field column whose type is outside the supported set never fails
    the switch of the field loop, whatever the row: it is handled as a
    floating-point column whose value at the row is not finite, nothing is
    written for it and the count of missing fields grows by one. *)
Theorem C8_unsupported_type_is_missing (fieldNames : list u16string)
  (iRow : nat) (col : Array) (temp : u16string) (st : RowState)
  (ft : FloatType) (elems : list float) (x : float) :
  supported (getType col) = false ->
  nth_error elems iRow = Some x ->
  is_finite x = false ->
  field_switch fieldNames iRow col temp st
  = field_switch fieldNames iRow (FloatArray ft elems) temp st /\
  field_switch fieldNames iRow col temp st = Ok (missing fieldNames st, true) /\
  rowStr (missing fieldNames st) = rowStr st /\
  nanNum (missing fieldNames st) = nanNum st + 1.
Proof.
  intros Hcol Hx Hfin.
  assert (H1 : field_switch fieldNames iRow col temp st
               = Ok (missing fieldNames st, true)).
  { unfold field_switch. destruct (getType col); try discriminate;
      reflexivity. }
  assert (H2 : field_switch fieldNames iRow (FloatArray ft elems) temp st
               = Ok (missing fieldNames st, true)).
  { rewrite field_switch_value with (v := Float x).
    - simpl. rewrite Hfin. reflexivity.
    - simpl. rewrite Hx. reflexivity. }
  rewrite H1, H2. repeat split.
Qed.

Lemma C8_unsupported_type_is_missing_witness :
  field_switch [U "x"; U "b"] 7 (OtherArray LOGICAL) (U "b=")
    (mkRowState (U "cpu x=1i,") true 0 2)
  = field_switch [U "x"; U "b"] 7
      (FloatArray Double [0; 0; 0; 0; 0; 0; 0; infinity]%float) (U "b=")
      (mkRowState (U "cpu x=1i,") true 0 2) /\
  field_switch [U "x"; U "b"] 7 (OtherArray LOGICAL) (U "b=")
    (mkRowState (U "cpu x=1i,") true 0 2)
  = Ok (missing [U "x"; U "b"] (mkRowState (U "cpu x=1i,") true 0 2), true) /\
  rowStr (missing [U "x"; U "b"] (mkRowState (U "cpu x=1i,") true 0 2))
  = U "cpu x=1i," /\
  nanNum (missing [U "x"; U "b"] (mkRowState (U "cpu x=1i,") true 0 2))
  = 0 + 1.
Proof.
  apply (@C8_unsupported_type_is_missing [U "x"; U "b"] 7
           (OtherArray LOGICAL) (U "b=")
           (mkRowState (U "cpu x=1i,") true 0 2) Double
           [0; 0; 0; 0; 0; 0; 0; infinity]%float infinity).
  - reflexivity.
  - reflexivity.
  - reflexivity.
Defined.

Lemma tag_value_not_textual (iRow : nat) (col : Array) :
  textual (getType col) = false -> tag_value iRow col = Some [].
Proof.
  destruct col as [t elems|t elems|elems|elems|chars|t]; simpl;
    try discriminate; try reflexivity.
  intros ->. reflexivity.
Qed.

(** C9: a tag column that is not text in one of the two representations
    still writes its pair: the name, the equals sign, no value, and the
    separator; the flag and the count of missing fields are left alone. *)
Theorem C9_tag_of_other_type_empty_value (tagNames : list u16string)
  (data : list Array) (iRow it : nat) (name : u16string) (col : Array)
  (st : RowState) :
  nth_error data (S (colIndx st)) = Some col ->
  textual (getType col) = false ->
  tag_body tagNames data iRow it name st =
  Ok (mkRowState
        (rowStr st ++ name ++ U "=" ++
         (if it =? lastTag tagNames then U " " else U ","))
        (addRow st) (nanNum st) (S (colIndx st))).
Proof.
  intros Hcol Ht.
  rewrite tag_body_value with (v := []) (col := col).
  - unfold pair_text. now rewrite app_nil_r, <- app_assoc.
  - apply index_nth. exact Hcol.
  - apply tag_value_not_textual. exact Ht.
Qed.

Lemma C9_tag_of_other_type_empty_value_witness :
  tag_body [U "host"; U "up"] [IntegerArray Int64 [0%Z]; StringArray [U "a"];
                               OtherArray LOGICAL] 0 1 (U "up")
    (mkRowState (U "cpu,host=a,") true 0 1)
  = Ok (mkRowState
          (U "cpu,host=a," ++ U "up" ++ U "=" ++
           (if 1 =? lastTag [U "host"; U "up"] then U " " else U ","))
          true 0 2).
Proof.
  apply (@C9_tag_of_other_type_empty_value [U "host"; U "up"]
           [IntegerArray Int64 [0%Z]; StringArray [U "a"]; OtherArray LOGICAL]
           0 1 (U "up") (OtherArray LOGICAL)
           (mkRowState (U "cpu,host=a,") true 0 1)).
  - reflexivity.
  - reflexivity.
Defined.

(** ** [pop_back] is always defined *)

Lemma row_body_defined (measurementStr : u16string)
  (fieldNames tagNames : list u16string) (data : list Array) (iRow : nat)
  (time : list Z) (res : u16string) :
  row_body measurementStr fieldNames tagNames data iRow time res
  <> Throw PopBackOnEmpty.
Proof.
  unfold row_body.
  pose proof (row_columns_nonempty measurementStr fieldNames tagNames data
                iRow) as Hrow.
  destruct (row_columns measurementStr fieldNames tagNames data iRow)
    as [st|e]; cbn [bind].
  - destruct (addRow st); [|discriminate].
    destruct (index time iRow) as [t|e] eqn:E; cbn [bind]; [discriminate|].
    apply index_throw in E. rewrite E. discriminate.
  - intros H. injection H as ->. now apply Hrow.
Qed.

Lemma row_loop_defined (measurementStr : u16string)
  (fieldNames tagNames : list u16string) (data : list Array)
  (time : list Z) (count : nat) :
  forall (iRow : nat) (res : u16string),
  row_loop measurementStr fieldNames tagNames data time count iRow res
  <> Throw PopBackOnEmpty.
Proof.
  induction count as [|count IH]; intros iRow res; simpl; [discriminate|].
  pose proof (row_body_defined measurementStr fieldNames tagNames data iRow
                time res) as Hb.
  destruct (row_body measurementStr fieldNames tagNames data iRow time res)
    as [r|e]; cbn [bind].
  - apply IH.
  - intros H. injection H as ->. now apply Hb.
Qed.

Lemma convert_defined (measurementStr : u16string)
  (fieldNames tagNames : list u16string) (data : list Array)
  (startRow endRow : nat) :
  convert2lineprotocol measurementStr fieldNames tagNames data
    startRow endRow <> Throw PopBackOnEmpty.
Proof.
  unfold convert2lineprotocol.
  destruct (index data 0) as [d0|e] eqn:E; cbn [bind].
  - destruct d0 as [t time| | | | |]; try discriminate.
    destruct t; try discriminate.
    cbn [bind int64_array]. apply row_loop_defined.
  - apply index_throw in E. rewrite E. discriminate.
Qed.

(** C10: [pop_back] never runs on an empty row buffer, in any row of any
    call; and in a row that is added and whose last field is skipped, the
    character it removes is the comma that was written after the pair of the
    last field kept: the buffer keeps the measurement, the tags and the
    pairs of the kept fields whole, and ends in the space that replaces the
    comma. *)
Theorem C10_pop_back_removes_a_separator (measurementStr : u16string)
  (fieldNames tagNames : list u16string) (data : list Array) (iRow : nat) :
  row_columns measurementStr fieldNames tagNames data iRow
  <> Throw PopBackOnEmpty /\
  (forall startRow endRow : nat,
     convert2lineprotocol measurementStr fieldNames tagNames data
       startRow endRow <> Throw PopBackOnEmpty) /\
  forall (names : list u16string) (name : u16string)
         (tvals : list u16string) (vals : list Value) (v : Value),
    fieldNames = names ++ [name] ->
    length vals = length names ->
    row_view tagNames fieldNames data iRow tvals (vals ++ [v]) ->
    skipped v = true ->
    row_added measurementStr fieldNames tagNames data iRow ->
    let text :=
      line_head measurementStr (pairs tagNames tvals) ++ U " " ++
      join (U ",") (field_pairs names vals) in
    exists st_pre st_end : RowState,
      (st <- tag_loop tagNames data iRow tagNames 0
               (row_start measurementStr tagNames) ;;
       field_loop fieldNames data iRow names 0 st) = Ok st_pre /\
      rowStr st_pre = text ++ U "," /\
      field_body fieldNames data iRow (length names) name st_pre
      = Ok st_end /\
      row_columns measurementStr fieldNames tagNames data iRow = Ok st_end /\
      rowStr st_end = text ++ U " ".
Proof.
  split; [|split].
  - pose proof (row_columns_nonempty measurementStr fieldNames tagNames data
                  iRow) as Hrow.
    intros H. rewrite H in Hrow. now apply Hrow.
  - intros startRow endRow. apply convert_defined.
  - intros names name tvals vals v Hnames Hlen Hview Hv [st [Hst Ha]] text.
    destruct (@last_field_skipped measurementStr fieldNames tagNames data
                iRow names name tvals vals v Hnames Hlen Hview
                (render_skipped _ Hv))
      as [Htags [Hpre [Hbody Hrow]]].
    rewrite Hrow in Hst. injection Hst as <-. cbn [addRow] in Ha.
    unfold text. clear text.
    destruct (field_pairs names vals) as [|p l] eqn:E; [discriminate|].
    eexists _, _.
    split; [rewrite Htags; cbn [bind]; exact Hpre|].
    split; [|split; [rewrite Hbody; exact Hrow|split; [exact Hrow|]]].
    + cbn [rowStr]. rewrite concat_sep_last by discriminate.
      now repeat rewrite <- app_assoc.
    + cbn [rowStr]. unfold close_fields.
      now repeat rewrite <- app_assoc.
Qed.

Lemma C10_pop_back_removes_a_separator_witness :
  exists st_pre st_end : RowState,
    (st <- tag_loop [U "host"] demo_data 1 [U "host"] 0
             (row_start (U "cpu") [U "host"]) ;;
     field_loop [U "n"; U "x"; U "b"] demo_data 1 [U "n"; U "x"] 0 st)
    = Ok st_pre /\
    rowStr st_pre = U "cpu,host=b n=6i" ++ U "," /\
    field_body [U "n"; U "x"; U "b"] demo_data 1 2 (U "b") st_pre
    = Ok st_end /\
    row_columns (U "cpu") [U "n"; U "x"; U "b"] [U "host"] demo_data 1
    = Ok st_end /\
    rowStr st_end = U "cpu,host=b n=6i" ++ U " ".
Proof.
  destruct (@C10_pop_back_removes_a_separator (U "cpu")
              [U "n"; U "x"; U "b"] [U "host"] demo_data 1) as [_ [_ H]].
  apply (H [U "n"; U "x"] (U "b") [U "b"] [Signed 6; Float nan] Unsupported).
  - reflexivity.
  - reflexivity.
  - apply RowView
      with (time := IntegerArray Int64 [1700000000; 1700000001; 1700000002]%Z)
           (tags := [StringArray [U "a"; U "b"; U "c"]])
           (fields := [IntegerArray Int32 [(-5)%Z; 6%Z; 7%Z];
                       FloatArray Double [3.5; nan; nan]%float;
                       OtherArray LOGICAL])
           (rest := []); reflexivity.
  - reflexivity.
  - exists (mkRowState (U "cpu,host=b n=6i ") true 2 4).
    split; vm_compute; reflexivity.
Defined.

(** * Further properties of the encoder *)

(** ** Ranges *)

(** X1: the output over a range is the output over its first part followed
    by the output over the rest, and the call over the range fails as the
    first of the two parts that fails. *)
Theorem X1_range_split (measurementStr : u16string)
  (fieldNames tagNames : list u16string) (data : list Array)
  (startRow midRow endRow : nat) :
  startRow <= midRow <= endRow ->
  convert2lineprotocol measurementStr fieldNames tagNames data
    startRow endRow =
  (first <- convert2lineprotocol measurementStr fieldNames tagNames data
              startRow midRow ;;
   second <- convert2lineprotocol measurementStr fieldNames tagNames data
               midRow endRow ;;
   Ok (first ++ second)).
Proof.
  intros Hmid. unfold convert2lineprotocol.
  destruct (index data 0) as [d0|e0]; cbn [bind]; [|reflexivity].
  destruct (int64_array d0) as [time|e0]; cbn [bind]; [|reflexivity].
  replace (endRow - startRow)
    with ((midRow - startRow) + (endRow - midRow)) by lia.
  rewrite row_loop_add.
  destruct (row_loop measurementStr fieldNames tagNames data time
              (midRow - startRow) startRow []) as [first|e0];
    cbn [bind]; [|reflexivity].
  replace (startRow + (midRow - startRow)) with midRow by lia.
  apply row_loop_acc.
Qed.

Lemma X1_range_split_witness :
  convert2lineprotocol (U "cpu") [U "n"; U "x"; U "b"] [U "host"] demo_data
    0 3 =
  (first <- convert2lineprotocol (U "cpu") [U "n"; U "x"; U "b"] [U "host"]
              demo_data 0 2 ;;
   second <- convert2lineprotocol (U "cpu") [U "n"; U "x"; U "b"] [U "host"]
               demo_data 2 3 ;;
   Ok (first ++ second)).
Proof.
  apply (@X1_range_split (U "cpu") [U "n"; U "x"; U "b"] [U "host"]
           demo_data 0 2 3).
  lia.
Defined.

(** X2: over an empty range, also one whose end lies before its start, the
    output is empty whenever the first column of the table is an array of
    64-bit signed integers: no other column is looked at. *)
Theorem X2_empty_range (measurementStr : u16string)
  (fieldNames tagNames : list u16string) (time : list Z)
  (columns : list Array) (startRow endRow : nat) :
  endRow <= startRow ->
  convert2lineprotocol measurementStr fieldNames tagNames
    (IntegerArray Int64 time :: columns) startRow endRow = Ok [].
Proof.
  intros Hle. unfold convert2lineprotocol. cbn [index nth_error bind].
  cbn [int64_array bind].
  replace (endRow - startRow) with 0 by lia. reflexivity.
Qed.

Lemma X2_empty_range_witness :
  convert2lineprotocol (U "cpu") [U "x"; U "y"] [U "host"]
    [IntegerArray Int64 []] 5 2 = Ok [].
Proof.
  apply (@X2_empty_range (U "cpu") [U "x"; U "y"] [U "host"] [] [] 5 2).
  lia.
Defined.

(** ** Rows with some fields missing *)

Lemma field_pairs_count (names : list u16string) :
  forall vals : list Value,
  length vals = length names ->
  length (field_pairs names vals) = length (filter representable vals).
Proof.
  induction names as [|name names IH]; intros [|v vals] Hlen;
    try discriminate; simpl; [reflexivity|].
  injection Hlen as Hlen. specialize (IH vals Hlen).
  destruct v; simpl; try (f_equal; exact IH); try exact IH.
  destruct (is_finite x); simpl; [f_equal|]; exact IH.
Qed.

Lemma skipped_count (vals : list Value) :
  length (filter representable vals) + length (filter skipped vals)
  = length vals.
Proof.
  induction vals as [|v vals IH]; [reflexivity|].
  simpl. unfold skipped at 1.
  destruct (representable v); simpl; lia.
Qed.

Lemma kept_exists (vals : list Value) :
  existsb representable vals =
  negb (length (filter representable vals) =? 0).
Proof.
  induction vals as [|v vals IH]; [reflexivity|].
  simpl. destruct (representable v); simpl; [reflexivity|exact IH].
Qed.

(** X4: in a table with at least one field column, a row of the range in
    which at least one field is kept adds exactly one line, between the
    output of the rows before it and the output of the rows after it: the
    measurement and the tags, a space, the pairs of the kept fields alone,
    in column order and joined by single commas, a space, the timestamp and
    a newline.  The pairs are as many as the fields of a supported type with
    a finite value. *)
Theorem X4_partial_row_line (measurementStr : u16string)
  (fieldNames tagNames : list u16string) (data : list Array)
  (startRow endRow iRow : nat) (tvals : list u16string)
  (fvals : list Value) (time : list Z) (t : Z) (res : u16string) :
  fieldNames <> [] ->
  startRow <= iRow < endRow ->
  row_view tagNames fieldNames data iRow tvals fvals ->
  existsb representable fvals = true ->
  nth_error data 0 = Some (IntegerArray Int64 time) ->
  nth_error time iRow = Some t ->
  convert2lineprotocol measurementStr fieldNames tagNames data
    startRow endRow = Ok res ->
  exists before after : u16string,
    convert2lineprotocol measurementStr fieldNames tagNames data
      startRow iRow = Ok before /\
    convert2lineprotocol measurementStr fieldNames tagNames data
      (S iRow) endRow = Ok after /\
    res = before ++
          line measurementStr (pairs tagNames tvals)
            (field_pairs fieldNames fvals) t ++
          after /\
    length (field_pairs fieldNames fvals)
    = length (filter representable fvals).
Proof.
  intros Hne Hin Hview Hsome Htime Ht Hres.
  destruct (row_view_lengths Hview) as [_ Hlf].
  pose proof (field_pairs_count fieldNames fvals Hlf) as Hcount.
  rewrite kept_exists in Hsome.
  destruct (@convert_around measurementStr fieldNames tagNames data
              startRow endRow iRow res Hin Hres)
    as [time' [before [out [after [Htime' [Hb [Hout [Ha ->]]]]]]]].
  rewrite Htime in Htime'. injection Htime' as <-.
  rewrite (@row_body_view measurementStr fieldNames tagNames data iRow
             tvals fvals time [] Hne Hview) in Hout.
  destruct (field_pairs fieldNames fvals) as [|p l] eqn:E.
  { rewrite <- Hcount in Hsome. discriminate. }
  rewrite (index_nth _ _ Ht) in Hout. cbn [bind] in Hout.
  injection Hout as <-.
  exists before, after. repeat split; assumption.
Qed.

Lemma X4_partial_row_line_witness :
  exists before after : u16string,
    convert2lineprotocol (U "cpu") [U "x"; U "n"; U "b"] [U "host"]
      mixed_data 0 1 = Ok before /\
    convert2lineprotocol (U "cpu") [U "x"; U "n"; U "b"] [U "host"]
      mixed_data 2 3 = Ok after /\
    U "cpu,host=a x=3.500000,n=-5i 1700000000" ++ newline ++
    U "cpu,host=b n=6i 1700000001" ++ newline ++
    U "cpu,host=c n=7i 1700000002" ++ newline
    = before ++
      line (U "cpu") (pairs [U "host"] [U "b"])
        (field_pairs [U "x"; U "n"; U "b"]
           [Float nan; Signed 6; Unsupported]) 1700000001 ++
      after /\
    length (field_pairs [U "x"; U "n"; U "b"]
              [Float nan; Signed 6; Unsupported])
    = length (filter representable [Float nan; Signed 6; Unsupported]).
Proof.
  apply (@X4_partial_row_line (U "cpu") [U "x"; U "n"; U "b"] [U "host"]
           mixed_data 0 3 1 [U "b"] [Float nan; Signed 6; Unsupported]
           [1700000000; 1700000001; 1700000002]%Z 1700000001%Z).
  - discriminate.
  - lia.
  - apply RowView
      with (time := IntegerArray Int64 [1700000000; 1700000001; 1700000002]%Z)
           (tags := [StringArray [U "a"; U "b"; U "c"]])
           (fields := [FloatArray Double [3.5; nan; nan]%float;
                       IntegerArray Int32 [(-5)%Z; 6%Z; 7%Z];
                       OtherArray LOGICAL])
           (rest := []); reflexivity.
  - reflexivity.
  - reflexivity.
  - reflexivity.
  - vm_compute. reflexivity.
Defined.

(** X5: in a table with at least one field column, after the two loops of
    a row [nanNum] is the number of the fields that were skipped, and
    [addRow] is cleared exactly when no field was kept: a row is dropped if
    and only if every one of its fields is skipped. *)
Theorem X5_row_counters (measurementStr : u16string)
  (fieldNames tagNames : list u16string) (data : list Array) (iRow : nat)
  (tvals : list u16string) (fvals : list Value) :
  fieldNames <> [] ->
  row_view tagNames fieldNames data iRow tvals fvals ->
  exists st : RowState,
    row_columns measurementStr fieldNames tagNames data iRow = Ok st /\
    addRow st = existsb representable fvals /\
    nanNum st = length (filter skipped fvals) /\
    colIndx st = length tagNames + length fieldNames /\
    (row_added measurementStr fieldNames tagNames data iRow <->
     forallb skipped fvals = false).
Proof.
  intros Hne Hview.
  destruct (row_view_lengths Hview) as [_ Hlf].
  pose proof (field_pairs_count fieldNames fvals Hlf) as Hcount.
  pose proof (skipped_count fvals) as Hsk.
  pose proof (@row_columns_view measurementStr fieldNames tagNames data iRow
                tvals fvals Hne Hview) as Hrow.
  assert (Hall : forallb skipped fvals = negb (existsb representable fvals)).
  { clear. induction fvals as [|v vals IH]; [reflexivity|].
    simpl. unfold skipped at 1. rewrite IH.
    destruct (representable v); reflexivity. }
  eexists. split; [exact Hrow|]. cbn [addRow nanNum colIndx].
  rewrite kept_exists, <- Hcount.
  split; [destruct (field_pairs fieldNames fvals); reflexivity|].
  split; [lia|]. split; [reflexivity|].
  rewrite Hall, kept_exists, <- Hcount. unfold row_added. rewrite Hrow.
  split.
  - intros [st [Hst Ha]]. injection Hst as <-. cbn [addRow] in Ha.
    destruct (field_pairs fieldNames fvals); [discriminate|reflexivity].
  - intros Hk. eexists. split; [reflexivity|]. cbn [addRow].
    destruct (field_pairs fieldNames fvals); [discriminate|reflexivity].
Qed.

Lemma X5_row_counters_witness :
  exists st : RowState,
    row_columns (U "cpu") [U "x"; U "n"; U "b"] [U "host"] mixed_data 1
    = Ok st /\
    addRow st = existsb representable [Float nan; Signed 6; Unsupported] /\
    nanNum st = length (filter skipped [Float nan; Signed 6; Unsupported]) /\
    colIndx st = 1 + 3 /\
    (row_added (U "cpu") [U "x"; U "n"; U "b"] [U "host"] mixed_data 1 <->
     forallb skipped [Float nan; Signed 6; Unsupported] = false).
Proof.
  apply (@X5_row_counters (U "cpu") [U "x"; U "n"; U "b"] [U "host"]
           mixed_data 1 [U "b"] [Float nan; Signed 6; Unsupported]).
  - discriminate.
  - apply RowView
      with (time := IntegerArray Int64 [1700000000; 1700000001; 1700000002]%Z)
           (tags := [StringArray [U "a"; U "b"; U "c"]])
           (fields := [FloatArray Double [3.5; nan; nan]%float;
                       IntegerArray Int32 [(-5)%Z; 6%Z; 7%Z];
                       OtherArray LOGICAL])
           (rest := []); reflexivity.
Defined.

(** ** The columns a call reads *)

(** X6: a call over a range that is not empty returns only when the table
    has a time column and, behind it, a column for every tag name and every
    field name, each of which can be read at every row of the range. *)
Theorem X6_returns_only_with_all_columns (measurementStr : u16string)
  (fieldNames tagNames : list u16string) (data : list Array)
  (startRow endRow : nat) (res : u16string) :
  startRow < endRow ->
  convert2lineprotocol measurementStr fieldNames tagNames data
    startRow endRow = Ok res ->
  1 + length tagNames + length fieldNames <= length data /\
  forall iRow : nat,
    startRow <= iRow < endRow ->
    exists (tvals : list u16string) (fvals : list Value),
      row_view tagNames fieldNames data iRow tvals fvals.
Proof.
  intros Hlt Hres.
  assert (Hviews : forall iRow : nat,
             startRow <= iRow < endRow ->
             exists (tvals : list u16string) (fvals : list Value),
               row_view tagNames fieldNames data iRow tvals fvals).
  { intros iRow Hin.
    exact (@convert_rows_have_views measurementStr fieldNames tagNames data
             startRow endRow iRow res Hin Hres). }
  split; [|exact Hviews].
  destruct (Hviews startRow ltac:(lia)) as [tvals [fvals Hview]].
  destruct Hview as [time tags fields rest -> Htn Hfn _ _].
  simpl. rewrite !length_app. lia.
Qed.

Lemma X6_returns_only_with_all_columns_witness :
  1 + length [U "host"] + length [U "x"; U "b"] <= length sparse_data /\
  forall iRow : nat,
    0 <= iRow < 3 ->
    exists (tvals : list u16string) (fvals : list Value),
      row_view [U "host"] [U "x"; U "b"] sparse_data iRow tvals fvals.
Proof.
  apply (@X6_returns_only_with_all_columns (U "cpu") [U "x"; U "b"]
           [U "host"] sparse_data 0 3
           (U "cpu,host=a x=3.500000 1700000000" ++ newline)).
  - lia.
  - vm_compute. reflexivity.
Defined.

Lemma index_more (A : Type) (l extra : list A) (i : nat) :
  i < length l -> index (l ++ extra) i = index l i.
Proof. intros Hi. unfold index. now rewrite nth_error_app1. Qed.

Section MoreColumns.

Variable measurementStr : u16string.
Variables fieldNames tagNames : list u16string.
Variables data extra : list Array.
Variable iRow : nat.

Lemma tag_loop_more (names : list u16string) :
  forall (it : nat) (st : RowState),
  colIndx st + length names < length data ->
  tag_loop tagNames (data ++ extra) iRow names it st
  = tag_loop tagNames data iRow names it st /\
  forall st' : RowState,
    tag_loop tagNames data iRow names it st = Ok st' ->
    colIndx st' = colIndx st + length names.
Proof.
  induction names as [|name names IH]; intros it st Hlen; simpl.
  - split; [reflexivity|]. intros st' H. injection H as <-. lia.
  - simpl in Hlen.
    assert (Hb : tag_body tagNames (data ++ extra) iRow it name st
                 = tag_body tagNames data iRow it name st).
    { unfold tag_body. cbv zeta. cbn [next_col colIndx append].
      rewrite index_more by lia. reflexivity. }
    rewrite Hb.
    pose proof (tag_body_cases tagNames data iRow it name st) as Hc.
    destruct (tag_body tagNames data iRow it name st) as [st1|e];
      cbn [bind]; [|split; [reflexivity|discriminate]].
    destruct Hc as [v ->].
    destruct (IH (S it)
                (mkRowState
                   (rowStr st ++ pair_text name v ++ tag_sep tagNames it)
                   (addRow st) (nanNum st) (S (colIndx st))))
      as [Heq Hidx]; [simpl; lia|].
    split; [exact Heq|].
    intros st' Hst'. rewrite (Hidx st' Hst'). simpl. lia.
Qed.

Lemma field_loop_more (names : list u16string) :
  forall (it : nat) (st : RowState),
  colIndx st + length names < length data ->
  field_loop fieldNames (data ++ extra) iRow names it st
  = field_loop fieldNames data iRow names it st.
Proof.
  induction names as [|name names IH]; intros it st Hlen; simpl.
  - reflexivity.
  - simpl in Hlen.
    assert (Hb : field_body fieldNames (data ++ extra) iRow it name st
                 = field_body fieldNames data iRow it name st).
    { unfold field_body. cbv zeta. cbn [next_col colIndx].
      rewrite index_more by lia. reflexivity. }
    rewrite Hb.
    pose proof (field_body_cases fieldNames data iRow it name st) as Hc.
    destruct (field_body fieldNames data iRow it name st) as [st1|e];
      cbn [bind]; [|reflexivity].
    apply IH.
    destruct Hc as [[s ->]|[[_ ->]|[_ [_ ->]]]]; simpl; lia.
Qed.

Lemma row_columns_more :
  length tagNames + length fieldNames < length data ->
  row_columns measurementStr fieldNames tagNames (data ++ extra) iRow
  = row_columns measurementStr fieldNames tagNames data iRow.
Proof.
  intros Hlen. unfold row_columns.
  assert (H0 : colIndx (row_start measurementStr tagNames) = 0).
  { unfold row_start. destruct (isTagNamesEmpty tagNames); reflexivity. }
  destruct (tag_loop_more tagNames 0 (row_start measurementStr tagNames))
    as [Heq Hidx]; [rewrite H0; lia|].
  rewrite Heq.
  destruct (tag_loop tagNames data iRow tagNames 0
              (row_start measurementStr tagNames)) as [st|e];
    cbn [bind]; [|reflexivity].
  apply field_loop_more. rewrite (Hidx st eq_refl), H0. simpl. lia.
Qed.

End MoreColumns.

(** X7: the columns of the table behind the last field column are never
    read: a table that has a column for the time, for every tag and for
    every field gives the same result, output or failure, whatever columns
    follow them. *)
Theorem X7_columns_behind_fields_unread (measurementStr : u16string)
  (fieldNames tagNames : list u16string) (data extra : list Array)
  (startRow endRow : nat) :
  1 + length tagNames + length fieldNames <= length data ->
  convert2lineprotocol measurementStr fieldNames tagNames (data ++ extra)
    startRow endRow
  = convert2lineprotocol measurementStr fieldNames tagNames data
      startRow endRow.
Proof.
  intros Hlen. unfold convert2lineprotocol.
  rewrite index_more by lia.
  destruct (index data 0) as [d0|e]; cbn [bind]; [|reflexivity].
  destruct (int64_array d0) as [time|e]; cbn [bind]; [|reflexivity].
  generalize (endRow - startRow) as count.
  generalize (@nil ascii) as res. generalize startRow as iRow.
  intros iRow res count. revert iRow res.
  induction count as [|count IH]; intros iRow res; simpl.
  - reflexivity.
  - unfold row_body. rewrite row_columns_more by lia.
    destruct (row_columns measurementStr fieldNames tagNames data iRow)
      as [st|e]; cbn [bind]; [|reflexivity].
    destruct (addRow st); [|apply IH].
    destruct (index time iRow) as [t|e]; cbn [bind]; [apply IH|reflexivity].
Qed.

Lemma X7_columns_behind_fields_unread_witness :
  convert2lineprotocol (U "cpu") [U "x"] [U "host"]
    ([ IntegerArray Int64 [1700000000; 1700000001; 1700000002]%Z;
       StringArray [U "a"; U "b"; U "c"];
       FloatArray Double [3.5; nan; nan]%float ] ++ [OtherArray LOGICAL])
    0 3
  = convert2lineprotocol (U "cpu") [U "x"] [U "host"]
      [ IntegerArray Int64 [1700000000; 1700000001; 1700000002]%Z;
        StringArray [U "a"; U "b"; U "c"];
        FloatArray Double [3.5; nan; nan]%float ] 0 3.
Proof.
  apply (@X7_columns_behind_fields_unread (U "cpu") [U "x"] [U "host"]
           [ IntegerArray Int64 [1700000000; 1700000001; 1700000002]%Z;
             StringArray [U "a"; U "b"; U "c"];
             FloatArray Double [3.5; nan; nan]%float ]
           [OtherArray LOGICAL] 0 3).
  simpl. lia.
Defined.

(** ** The end of a line *)

Section LineEnd.

Variable measurementStr : u16string.
Variables fieldNames tagNames : list u16string.
Variable data : list Array.
Variable iRow : nat.

Lemma tag_loop_ends_in_space (names : list u16string) :
  forall (it : nat) (st st' : RowState),
  names <> [] ->
  it + length names = length tagNames ->
  tag_loop tagNames data iRow names it st = Ok st' ->
  exists buf : u16string, rowStr st' = buf ++ U " ".
Proof.
  induction names as [|name names IH]; intros it st st' Hne Hit Hloop;
    [congruence|].
  simpl in Hloop, Hit.
  pose proof (tag_body_cases tagNames data iRow it name st) as Hc.
  destruct (tag_body tagNames data iRow it name st) as [st1|e];
    [|discriminate].
  cbn [bind] in Hloop. destruct Hc as [v ->].
  destruct names as [|name' names].
  - simpl in Hloop, Hit. injection Hloop as <-. simpl.
    unfold tag_sep.
    destruct (Nat.eqb_spec it (lastTag tagNames)) as [_|Hd];
      [|unfold lastTag in Hd; lia].
    exists (rowStr st ++ pair_text name v). now rewrite <- app_assoc.
  - eapply IH; [discriminate| |exact Hloop]. simpl in *. lia.
Qed.

Lemma field_loop_ends_in_space (names : list u16string) :
  forall (it : nat) (st st' : RowState),
  names <> [] ->
  it + length names = length fieldNames ->
  field_loop fieldNames data iRow names it st = Ok st' ->
  exists buf : u16string, rowStr st' = buf ++ U " ".
Proof.
  induction names as [|name names IH]; intros it st st' Hne Hit Hloop;
    [congruence|].
  simpl in Hloop, Hit.
  pose proof (field_body_cases fieldNames data iRow it name st) as Hc.
  destruct (field_body fieldNames data iRow it name st) as [st1|e];
    [|discriminate].
  cbn [bind] in Hloop.
  destruct names as [|name' names].
  - simpl in Hloop, Hit. injection Hloop as <-.
    destruct Hc as [[s ->]|[[Hd _]|[_ [_ ->]]]].
    + simpl. unfold field_sep.
      destruct (Nat.eqb_spec it (lastMinusOne fieldNames)) as [_|Hd];
        [|unfold lastMinusOne in Hd; lia].
      exists (rowStr st ++ pair_text name s). now rewrite <- app_assoc.
    + unfold lastMinusOne in Hd. lia.
    + simpl. now exists (removelast (rowStr st)).
  - eapply IH; [discriminate| |exact Hloop]. simpl in *. lia.
Qed.

Lemma row_columns_ends_in_space (st : RowState) :
  row_columns measurementStr fieldNames tagNames data iRow = Ok st ->
  exists buf : u16string, rowStr st = buf ++ U " ".
Proof.
  unfold row_columns. intros Hrow.
  destruct (tag_loop tagNames data iRow tagNames 0
              (row_start measurementStr tagNames)) as [st1|e] eqn:Ht;
    [|discriminate].
  cbn [bind] in Hrow.
  destruct fieldNames as [|fname fnames] eqn:Ef.
  - simpl in Hrow. injection Hrow as <-.
    destruct tagNames as [|tname tnames] eqn:Et.
    + simpl in Ht. injection Ht as <-. now exists measurementStr.
    + rewrite <- Et in Ht.
      eapply tag_loop_ends_in_space; [| |exact Ht];
        [rewrite Et; discriminate|reflexivity].
  - rewrite <- Ef in Hrow.
    eapply field_loop_ends_in_space; [| |exact Hrow];
      [rewrite Ef; discriminate|reflexivity].
Qed.

End LineEnd.

(** X8: every line of the output ends in a single space, the value of the
    time column at the row as a plain decimal integer, and a newline,
    whatever the tags and the fields of the row. *)
Theorem X8_line_ends_in_timestamp (measurementStr : u16string)
  (fieldNames tagNames : list u16string) (data : list Array)
  (time : list Z) (iRow : nat) (l : u16string) :
  row_line measurementStr fieldNames tagNames data time iRow l ->
  exists (body : u16string) (t : Z),
    nth_error time iRow = Some t /\
    l = body ++ U " " ++ to_wstring t ++ newline.
Proof.
  intros [st [t [Hst [_ [Ht ->]]]]].
  destruct (@row_columns_ends_in_space measurementStr fieldNames tagNames
              data iRow st Hst) as [buf Hbuf].
  exists buf, t. split; [exact Ht|].
  rewrite Hbuf. now rewrite <- app_assoc.
Qed.

Lemma X8_line_ends_in_timestamp_witness :
  exists (body : u16string) (t : Z),
    nth_error [1700000000; 1700000001; 1700000002]%Z 1 = Some t /\
    U "cpu,host=b n=6i 1700000001" ++ newline
    = body ++ U " " ++ to_wstring t ++ newline.
Proof.
  apply (@X8_line_ends_in_timestamp (U "cpu") [U "n"; U "x"; U "b"]
           [U "host"] demo_data [1700000000; 1700000001; 1700000002]%Z 1).
  exists (mkRowState (U "cpu,host=b n=6i ") true 2 4), 1700000001%Z.
  repeat split; vm_compute; reflexivity.
Defined.

(** ** A table without field columns *)

(** X9: when the list of field names is empty no row is ever dropped: a
    row whose tags can be read adds the measurement, the tags, one space,
    the timestamp and a newline. *)
Theorem X9_no_field_columns (measurementStr : u16string)
  (tagNames : list u16string) (data : list Array) (iRow : nat)
  (tvals : list u16string) (time : list Z) (t : Z) (res : u16string) :
  row_view tagNames [] data iRow tvals [] ->
  nth_error time iRow = Some t ->
  row_added measurementStr [] tagNames data iRow /\
  row_body measurementStr [] tagNames data iRow time res
  = Ok (res ++ line_head measurementStr (pairs tagNames tvals) ++ U " " ++
        to_wstring t ++ newline).
Proof.
  intros [time0 tags fields rest Hdata Htn Hfn Htv Hfv] Ht.
  pose proof (@tag_loop_row measurementStr tagNames data iRow tvals tags
                (fields ++ rest) time0 Hdata Htn Htv) as Htags.
  assert (Hrow : row_columns measurementStr [] tagNames data iRow
                 = Ok (mkRowState
                         (line_head measurementStr (pairs tagNames tvals)
                          ++ U " ") true 0 (length tagNames))).
  { unfold row_columns. rewrite Htags. reflexivity. }
  split.
  - eexists. split; [exact Hrow|reflexivity].
  - unfold row_body. rewrite Hrow. cbn [bind addRow rowStr].
    rewrite (index_nth _ _ Ht). cbn [bind].
    now repeat rewrite <- app_assoc.
Qed.

Lemma X9_no_field_columns_witness :
  row_added (U "cpu") [] [U "host"] sparse_data 1 /\
  row_body (U "cpu") [] [U "host"] sparse_data 1
    [1700000000; 1700000001; 1700000002]%Z []
  = Ok ([] ++ line_head (U "cpu") (pairs [U "host"] [U "b"]) ++ U " " ++
        to_wstring 1700000001 ++ newline).
Proof.
  apply (@X9_no_field_columns (U "cpu") [U "host"] sparse_data 1 [U "b"]
           [1700000000; 1700000001; 1700000002]%Z 1700000001%Z []).
  - apply RowView
      with (time := IntegerArray Int64 [1700000000; 1700000001; 1700000002]%Z)
           (tags := [StringArray [U "a"; U "b"; U "c"]])
           (fields := [])
           (rest := [FloatArray Double [3.5; nan; nan]%float;
                     OtherArray LOGICAL]); reflexivity.
  - reflexivity.
Defined.

(** ** Failures *)

(** X10: no part of a range can fail without the call failing: if the call
    over a part of the range ends with an exception, so does the call over
    the range, and with the same exception when the rows before the part
    raise none.  A failure leaves no partial output. *)
Theorem X10_failure_of_a_part (measurementStr : u16string)
  (fieldNames tagNames : list u16string) (data : list Array)
  (startRow endRow fromRow toRow : nat) (e : Failure) :
  startRow <= fromRow <= toRow ->
  toRow <= endRow ->
  convert2lineprotocol measurementStr fieldNames tagNames data
    fromRow toRow = Throw e ->
  (exists e' : Failure,
     convert2lineprotocol measurementStr fieldNames tagNames data
       startRow endRow = Throw e') /\
  forall before : u16string,
    convert2lineprotocol measurementStr fieldNames tagNames data
      startRow fromRow = Ok before ->
    convert2lineprotocol measurementStr fieldNames tagNames data
      startRow endRow = Throw e.
Proof.
  intros Hfrom Hto. unfold convert2lineprotocol.
  destruct (index data 0) as [d0|e0]; cbn [bind].
  2:{ intros H. injection H as <-. split; [now exists e0|discriminate]. }
  destruct (int64_array d0) as [time|e0]; cbn [bind].
  2:{ intros H. injection H as <-. split; [now exists e0|discriminate]. }
  intros Hfail.
  replace (endRow - startRow)
    with ((fromRow - startRow) + ((toRow - fromRow) + (endRow - toRow)))
    by lia.
  rewrite row_loop_add.
  assert (Hpart : forall r : u16string,
             row_loop measurementStr fieldNames tagNames data time
               ((toRow - fromRow) + (endRow - toRow))
               (startRow + (fromRow - startRow)) r = Throw e).
  { intros r. rewrite row_loop_add.
    replace (startRow + (fromRow - startRow)) with fromRow by lia.
    rewrite row_loop_acc, Hfail. reflexivity. }
  destruct (row_loop measurementStr fieldNames tagNames data time
              (fromRow - startRow) startRow []) as [r|e0]; cbn [bind].
  - rewrite Hpart. split; [now exists e|]. intros _ _. reflexivity.
  - split; [now exists e0|discriminate].
Qed.

Lemma X10_failure_of_a_part_witness :
  (exists e' : Failure,
     convert2lineprotocol (U "cpu") [U "x"; U "b"] [U "host"] sparse_data
       0 5 = Throw e') /\
  forall before : u16string,
    convert2lineprotocol (U "cpu") [U "x"; U "b"] [U "host"] sparse_data
      0 3 = Ok before ->
    convert2lineprotocol (U "cpu") [U "x"; U "b"] [U "host"] sparse_data
      0 5 = Throw InvalidArrayIndex.
Proof.
  apply (@X10_failure_of_a_part (U "cpu") [U "x"; U "b"] [U "host"]
           sparse_data 0 5 3 4 InvalidArrayIndex).
  - lia.
  - lia.
  - vm_compute. reflexivity.
Defined.

(** ** What the number tokens keep of the values *)

Lemma to_wstring_reads_back (z : Z) :
  option_map Z.of_int
    (NilZero.int_of_string (string_of_list_ascii (to_wstring z)))
  = Some z.
Proof.
  unfold to_wstring, U. rewrite string_of_list_ascii_of_string.
  rewrite NilZero.isi.
  - simpl. now rewrite DecimalZ.of_to.
  - destruct z; simpl; try discriminate.
    intros H. injection H as H. now apply Unsigned.to_uint_nonnil in H.
  - destruct z; simpl; try discriminate.
    intros H. injection H as H. now apply Unsigned.to_uint_nonnil in H.
Qed.

Lemma to_wstring_inj (z1 z2 : Z) :
  to_wstring z1 = to_wstring z2 -> z1 = z2.
Proof.
  intros H.
  pose proof (to_wstring_reads_back z1) as H1.
  rewrite H, to_wstring_reads_back in H1. now injection H1.
Qed.

Lemma integer_field_text (fieldNames : list u16string) (t : IntegerType)
  (elems : list Z) (iRow : nat) (name : u16string) (z : Z) :
  nth_error elems iRow = Some z ->
  field_text fieldNames (IntegerArray t elems) iRow name
  = Ok (Some (name ++ U "=" ++ to_wstring z ++
              (if signed t then U "i" else U "u"))).
Proof.
  intros Hz. unfold field_text.
  rewrite field_switch_value
    with (v := (if signed t then Signed else Unsigned) z)
    by (simpl; rewrite Hz; reflexivity).
  destruct t; simpl; now rewrite <- app_assoc.
Qed.

(** X11: an integer field loses nothing of its value: the token written
    for it is the name, the equals sign, a decimal numeral that reads back
    as the value, and the suffix of the signedness of the column, so two
    values of a column are written alike only when they are equal. *)
Theorem X11_integer_token_keeps_value (fieldNames : list u16string)
  (t : IntegerType) (elems1 elems2 : list Z) (iRow : nat)
  (name : u16string) (z1 z2 : Z) :
  nth_error elems1 iRow = Some z1 ->
  nth_error elems2 iRow = Some z2 ->
  field_text fieldNames (IntegerArray t elems1) iRow name
  = Ok (Some (name ++ U "=" ++ to_wstring z1 ++
              (if signed t then U "i" else U "u"))) /\
  option_map Z.of_int
    (NilZero.int_of_string (string_of_list_ascii (to_wstring z1)))
  = Some z1 /\
  (field_text fieldNames (IntegerArray t elems1) iRow name
   = field_text fieldNames (IntegerArray t elems2) iRow name ->
   z1 = z2).
Proof.
  intros H1 H2.
  split; [exact (integer_field_text fieldNames t elems1 iRow name H1)|].
  split; [apply to_wstring_reads_back|].
  rewrite (integer_field_text fieldNames t elems1 iRow name H1).
  rewrite (integer_field_text fieldNames t elems2 iRow name H2).
  intros H. injection H as H.
  apply app_inv_head in H. injection H as H.
  apply app_inv_tail in H. now apply to_wstring_inj.
Qed.

Lemma X11_integer_token_keeps_value_witness :
  field_text [U "n"] (IntegerArray Int32 [(-5)%Z; 6%Z; 7%Z]) 1 (U "n")
  = Ok (Some (U "n" ++ U "=" ++ to_wstring 6 ++
              (if signed Int32 then U "i" else U "u"))) /\
  option_map Z.of_int
    (NilZero.int_of_string (string_of_list_ascii (to_wstring 6)))
  = Some 6%Z /\
  (field_text [U "n"] (IntegerArray Int32 [(-5)%Z; 6%Z; 7%Z]) 1 (U "n")
   = field_text [U "n"] (IntegerArray Int32 [0%Z; 6%Z]) 1 (U "n") ->
   6%Z = 6%Z).
Proof.
  apply (@X11_integer_token_keeps_value [U "n"] Int32 [(-5)%Z; 6%Z; 7%Z]
           [0%Z; 6%Z] 1 (U "n") 6%Z 6%Z).
  - reflexivity.
  - reflexivity.
Defined.

Lemma millionths_small (m : positive) (e : Z) :
  (2000000 * Z.pos m < 2 ^ (- e))%Z -> millionths m e = 0%Z.
Proof.
  intros Hsmall. unfold millionths.
  destruct (Z.leb_spec 0 e) as [He|He].
  - exfalso.
    assert (2 ^ (- e) <= 1)%Z; [|lia].
    destruct (Z.eq_dec e 0) as [->|Hne]; [simpl; lia|].
    rewrite Z.pow_neg_r by lia. lia.
  - unfold div_nearest_even.
    rewrite Z.div_small, Z.mod_small by lia.
    destruct (Z.ltb_spec (2 * (Z.pos m * 1000000)) (2 ^ (- e)));
      [reflexivity|lia].
Qed.

(** X12: a floating-point field keeps six digits after the decimal point
    and no more: a finite value whose magnitude is below 0.0000005 is
    written [0.000000], after a minus sign when its sign bit is set, so the
    value itself is lost. *)
Theorem X12_small_double_written_as_zero (fieldNames : list u16string)
  (t : FloatType) (elems : list float) (iRow : nat) (name : u16string)
  (x : float) (s : bool) (m : positive) (e : Z) :
  nth_error elems iRow = Some x ->
  is_finite x = true ->
  Prim2SF x = S754_finite s m e ->
  (2000000 * Z.pos m < 2 ^ (- e))%Z ->
  field_text fieldNames (FloatArray t elems) iRow name
  = Ok (Some (name ++ U "=" ++ (if s then U "-" else []) ++ U "0.000000")).
Proof.
  intros Hx Hfin Hsf Hsmall. unfold field_text.
  rewrite field_switch_value with (v := Float x)
    by (simpl; rewrite Hx; reflexivity).
  simpl render. rewrite Hfin. cbn [bind rowStr append].
  unfold to_wstring_double. rewrite Hsf, (@millionths_small m e Hsmall).
  rewrite app_nil_l, <- app_assoc.
  destruct s; reflexivity.
Qed.

Lemma X12_small_double_written_as_zero_witness :
  field_text [U "x"] (FloatArray Double [0x1p-30%float]) 0 (U "x")
  = Ok (Some (U "x" ++ U "=" ++ (if false then U "-" else []) ++
              U "0.000000")).
Proof.
  apply (@X12_small_double_written_as_zero [U "x"] Double [0x1p-30%float]
           0 (U "x") 0x1p-30%float false 4503599627370496%positive (-82)%Z).
  - reflexivity.
  - reflexivity.
  - vm_compute. reflexivity.
  - vm_compute. reflexivity.
Defined.
